(** * viz_tools: frame rendering, video assembly and mesh extraction

    A shallow embedding of [viz_tools.py], the visualisation module of the
    2D shallow-water model.  The module is glue around matplotlib, PIL,
    OpenCV, PyMCubes and joblib; those libraries are black boxes here
    (section variables), while everything the module itself computes or
    sequences is written out: the index arithmetic, the file names, the
    order of the library calls, the exceptions Python raises.

    Python floats are kept behind an interface, [PyFloat], with two
    instances: IEEE binary64 ([float], the kernel's primitive floats), over
    which the code can be evaluated on concrete inputs exactly as CPython
    evaluates it, and exact rationals ([Q]), over which the theorems on
    the animation functions are proved (titles, colour limits, strides).
    What is said of the index arithmetic of the mesh extraction is proved
    for every instance, or evaluated on binary64.

    Conventions of the model:
    - a run is a function from a state to a result and a state; the state
      holds matplotlib's current figure, the directories and files on
      disk, and the log of the calls that touch the disk;
    - file-system calls succeed (the disk is writable) and [out_folder] is
      an absolute path, so that [resolve()] changes nothing;
    - [pcolormesh] refuses a grid that does not fit the data with
      TypeError; [set_array], [quiver], [set_UVC] and [plot_surface] take
      the arrays they are given;
    - a title is kept as its format string and the number formatted into
      it, not as the rendered text;
    - array reductions compare entries with [<]; NaN entries are outside
      the model. *)

From Stdlib Require Import ZArith QArith Qround Qabs String Ascii List Lia Lqa.
From Stdlib Require Import PrimFloat FloatOps SpecFloat.
From stdpp Require Import gmap strings list.

Close Scope Q_scope.
Open Scope string_scope.
Open Scope Z_scope.

(** ** Exceptions and results *)

Inductive exn :=
| IndexError
| ValueError
| TypeError
| OverflowError
| ZeroDivisionError
| FileNotFoundError
| NameError (name : string)
| UnboundLocalError (name : string).

Inductive result (A : Type) :=
| Ok (a : A)
| Raise (e : exn).
Arguments Ok {A} a.
Arguments Raise {A} e.

Definition rbind {A B} (r : result A) (k : A -> result B) : result B :=
  match r with
  | Ok a => k a
  | Raise e => Raise e
  end.

Declare Scope py_scope.
Delimit Scope py_scope with py.
Notation "'let?' x ':=' r 'in' k" := (rbind r (fun x => k))
  (at level 10, x pattern, r at level 100, k at level 200) : py_scope.
Open Scope py_scope.

(** ** Python floats *)

Class PyFloat (F : Type) := {
  of_int : Z -> F;                 (* float(i) for a Python int *)
  literal : Z -> positive -> F;    (* the decimal literal n/d *)
  fsub : F -> F -> F;
  fmul : F -> F -> F;
  fdiv : F -> F -> result F;       (* x / 0 raises ZeroDivisionError *)
  fabs : F -> F;
  flt : F -> F -> bool;            (* a < b *)
  to_int : F -> result Z;          (* int(x): truncation toward zero *)
}.

(** [int()] on an exact rational. *)
Definition Qtrunc (q : Q) : Z := Z.quot (Qnum q) (Z.pos (Qden q)).

#[export] Instance Q_PyFloat : PyFloat Q := {|
  of_int := inject_Z;
  literal n d := Qmake n d;
  fsub := Qminus;
  fmul := Qmult;
  fdiv a b := if Qeq_bool b 0 then Raise ZeroDivisionError else Ok (Qdiv a b);
  fabs := Qabs;
  flt a b := negb (Qle_bool b a);
  to_int q := Ok (Qtrunc q);
|}.

(** Binary64: [float(i)] rounds to nearest-even; [int(x)] drops the
    fraction and fails on NaN and on the infinities. *)
Definition f64_of_Z (z : Z) : float :=
  SF2Prim (binary_normalize 53 1024 z 0 false).

Definition f64_to_int (f : float) : result Z :=
  match Prim2SF f with
  | S754_zero _ => Ok 0
  | S754_finite s m e =>
      let a := Z.shiftl (Z.pos m) e in Ok (if s then - a else a)
  | S754_infinity _ => Raise OverflowError
  | S754_nan => Raise ValueError
  end.

#[export] Instance f64_PyFloat : PyFloat float := {|
  of_int := f64_of_Z;
  literal n d := PrimFloat.div (f64_of_Z n) (f64_of_Z (Z.pos d));
  fsub := PrimFloat.sub;
  fmul := PrimFloat.mul;
  fdiv a b :=
    if PrimFloat.eqb b 0%float then Raise ZeroDivisionError
    else Ok (PrimFloat.div a b);
  fabs := PrimFloat.abs;
  flt := PrimFloat.ltb;
  to_int := f64_to_int;
|}.

(** The builtin [max(a, b)]: the later argument wins only when it is
    strictly greater. *)
Definition py_max {F} `{PyFloat F} (a b : F) : F := if flt a b then b else a.
Definition py_min {F} `{PyFloat F} (a b : F) : F := if flt b a then b else a.

(** ** Arrays *)

(** A 2D ndarray, row by row. *)
Definition array2 (F : Type) := list (list F).

Definition shape0 {F} (a : array2 F) : Z := Z.of_nat (length a).
Definition shape1 {F} (a : array2 F) : Z := Z.of_nat (length (hd [] a)).

Definition rectangular {F} (a : array2 F) (n0 n1 : nat) : Prop :=
  length a = n0 /\ Forall (fun row => length row = n1) a.

(** numpy's index normalisation along an axis of length [n]. *)
Definition np_index (n : nat) (i : Z) : result nat :=
  if (0 <=? i) && (i <? Z.of_nat n) then Ok (Z.to_nat i)
  else if (- Z.of_nat n <=? i) && (i <? 0) then Ok (Z.to_nat (Z.of_nat n + i))
  else Raise IndexError.

(** [l[i]] on a Python list or along one ndarray axis. *)
Definition getitem {A} (l : list A) (i : Z) : result A :=
  let? k := np_index (length l) i in
  match l !! k with
  | Some x => Ok x
  | None => Raise IndexError
  end.

(** [a[i, j]] *)
Definition getitem2 {F} (a : array2 F) (i j : Z) : result F :=
  let? row := getitem a i in
  getitem row j.

(** ** Mesh extraction: the pure part of [get_mesh] *)

Section MeshNumerics.
Context {F : Type} `{PyFloat F}.

Definition point3 : Type := F * F * F.

(** [bounds[0]] and [bounds[1]]: the minimum and the maximum corner. *)
Definition bbox : Type := point3 * point3.

(** [rg], line 88. *)
Definition largest_extent (b : bbox) : F :=
  let '((x_min, y_min, z_min), (x_max, y_max, z_max)) := b in
  py_max (fsub x_max x_min) (py_max (fsub y_max y_min) (fsub z_max z_min)).

(** [int(res / rg * extent)] *)
Definition axis_res (res : Z) (rg extent : F) : result Z :=
  let? q := fdiv (of_int res) rg in
  to_int (fmul q extent).

(** Lines 84-91 of [get_mesh]: [resx], [resy], [resz]. *)
Definition axis_resolutions (res : Z) (b : bbox) : result (Z * Z * Z) :=
  let '((x_min, y_min, z_min), (x_max, y_max, z_max)) := b in
  let rg := largest_extent b in
  let? resx := axis_res res rg (fsub x_max x_min) in
  let? resy := axis_res res rg (fsub y_max y_min) in
  let? resz := axis_res res rg (fsub z_max z_min) in
  Ok (resx, resy, resz).

(** The closure [sdf] of [get_mesh], with the variables it captures. *)
Definition sdf (eta : array2 F) (b : bbox) (x y z : F) : result F :=
  let '((x_min, y_min, z_min), (x_max, y_max, z_max)) := b in
  let? cx := fdiv (fmul (of_int (shape0 eta - 1)) (fsub x x_min))
                  (fsub x_max x_min) in
  let? col := to_int cx in
  let? ry := fdiv (fmul (of_int (shape1 eta - 1)) (fsub y y_min))
                  (fsub y_max y_min) in
  let? row := to_int ry in
  let? h := getitem2 eta col row in
  Ok (fsub h z).

End MeshNumerics.

Arguments point3 F : clear implicits.
Arguments bbox F : clear implicits.

(** ** File names *)

(** [str(n)] for a natural number: decimal digits, least significant
    first; the fuel is the bit length, which bounds the digit count. *)
Fixpoint lsd_digits (fuel : nat) (n : N) : list N :=
  match fuel with
  | O => []
  | S fuel' =>
      (n mod 10)%N ::
      (if (n / 10 =? 0)%N then [] else lsd_digits fuel' (n / 10)%N)
  end.

Definition digit_char (d : N) : ascii := ascii_of_N (48 + d).

Definition str_of_N (n : N) : string :=
  string_of_list_ascii
    (map digit_char (rev (lsd_digits (S (N.to_nat (N.log2 n))) n))).

(** [s.zfill(w)] on a string of digits. *)
Definition zfill (w : nat) (s : string) : string :=
  string_of_list_ascii (replicate (w - String.length s) "0"%char) ++ s.

(** The format spec [{i:08d}] for [i >= 0]. *)
Definition format_08d (i : nat) : string := zfill 8 (str_of_N (N.of_nat i)).

(** [Path(a) / b] *)
Definition path_join (a b : string) : string := a ++ "/" ++ b.

Definition frame_name (frames_folder : string) (i : nat) : string :=
  path_join frames_folder ("frame_" ++ format_08d i ++ ".png").

Definition mesh_name (out_folder : string) (i : nat) : string :=
  path_join out_folder ("mesh_" ++ format_08d i ++ ".obj").

(** ** Images *)

(** [np.array(frame)] has shape (height, width, channels). *)
Definition pixel := list Z.
Definition image := list (list pixel).

(** PIL's [frame.size] is (width, height). *)
Definition image_size (im : image) : nat * nat :=
  (length (hd [] im), length im).

Fixpoint mapM {A B} (f : A -> result B) (l : list A) : result (list B) :=
  match l with
  | [] => Ok []
  | x :: l' =>
      let? y := f x in
      let? ys := mapM f l' in
      Ok (y :: ys)
  end.

(** [arr[..., idx]]: fancy indexing on the last axis. *)
Definition take_channels (idx : list Z) (im : image) : result image :=
  mapM (mapM (fun px : pixel => mapM (getitem px) idx)) im.

(** Channels 2, 1, 0 of a pixel with at least three of them. *)
Definition bgr_pixel (px : pixel) : pixel := [nth 2 px 0; nth 1 px 0; nth 0 px 0].
Definition bgr (im : image) : image := map (map bgr_pixel) im.

Definition has_rgb (im : image) : Prop :=
  Forall (Forall (fun px : pixel => (3 <= length px)%nat)) im.

(** ** Effects: a state-and-exception monad

    A raised exception keeps the state reached so far: files written
    before the failure stay written. *)

Definition M (S A : Type) : Type := S -> result A * S.

Definition mret {S A} (a : A) : M S A := fun s => (Ok a, s).
Definition mraise {S A} (e : exn) : M S A := fun s => (Raise e, s).
Definition lift {S A} (r : result A) : M S A := fun s => (r, s).
Definition mbind {S A B} (m : M S A) (k : A -> M S B) : M S B :=
  fun s =>
    match m s with
    | (Ok a, s') => k a s'
    | (Raise e, s') => (Raise e, s')
    end.

Notation "'let!' x ':=' m 'in' k" := (mbind m (fun x => k))
  (at level 10, x pattern, m at level 100, k at level 200) : py_scope.
Notation "m ';;' k" := (mbind m (fun _ => k))
  (at level 100, k at level 200, right associativity) : py_scope.

(** ** Plots, files and library calls *)

Inductive title (F : Type) :=
| TitleText (s : string)
| TitleFmt (fmt : string) (arg : F).      (* fmt.format(arg) *)
Arguments TitleText {F} s.
Arguments TitleFmt {F} fmt arg.

Inductive artist (F : Type) :=
| PColorMesh (X Y : array2 F) (C : list F) (vmin vmax : F)
| Quiver (X Y U V : array2 F) (scale : F)
| Surface (X Y Z : array2 F) (cmap : string) (clim : option (F * F)).
Arguments PColorMesh {F} X Y C vmin vmax.
Arguments Quiver {F} X Y U V scale.
Arguments Surface {F} X Y Z cmap clim.

(** What matplotlib's current figure holds when it is rasterised. *)
Record figure (F : Type) := Figure {
  fig_title : option (title F);
  fig_xlabel : string;
  fig_ylabel : string;
  fig_zlabel : string;
  fig_artist : option (artist F);
  fig_colorbar : bool;
  fig_xlim : option (F * F);
  fig_ylim : option (F * F);
  fig_zlim : option (F * F);
}.
Arguments Figure {F}.
Arguments fig_title {F}.
Arguments fig_xlabel {F}.
Arguments fig_ylabel {F}.
Arguments fig_zlabel {F}.
Arguments fig_artist {F}.
Arguments fig_colorbar {F}.
Arguments fig_xlim {F}.
Arguments fig_ylim {F}.
Arguments fig_zlim {F}.

Definition empty_figure {F} : figure F :=
  Figure None "" "" "" None false None None None.

(** An open or finished [cv2.VideoWriter] file. *)
Record container := Container {
  vid_fourcc : string;
  vid_fps : Z;
  vid_size : nat * nat;
  vid_frames : list image;
  vid_released : bool;
}.

(** Vertices and triangles, as [mcubes] returns them. *)
Definition mesh (F : Type) : Type := list (F * F * F) * list (Z * Z * Z).

Inductive file (F : Type) :=
| FImage (im : image)
| FVideo (v : container)
| FMesh (m : mesh F).
Arguments FImage {F} im.
Arguments FVideo {F} v.
Arguments FMesh {F} m.

(** The calls that touch the file system, in the order they happen. *)
Inductive effect (F : Type) :=
| EMkdir (path : string)
| ESavefig (path : string) (im : image)
| EVideoWriter (path fourcc : string) (fps : Z) (size : nat * nat)
| EVideoWrite (path : string) (frame : image)
| EVideoRelease (path : string)
| EExportObj (path : string) (m : mesh F).
Arguments EMkdir {F} path.
Arguments ESavefig {F} path im.
Arguments EVideoWriter {F} path fourcc fps size.
Arguments EVideoWrite {F} path frame.
Arguments EVideoRelease {F} path.
Arguments EExportObj {F} path m.

Record state (F : Type) := State {
  st_fig : figure F;
  st_dirs : gset string;
  st_fs : gmap string (file F);
  st_log : list (effect F);
}.
Arguments State {F}.
Arguments st_fig {F}.
Arguments st_dirs {F}.
Arguments st_fs {F}.
Arguments st_log {F}.

Inductive retval :=
| RInt (z : Z)
| RAnim.

(** ** numpy helpers *)

Section Numpy.
Context {F : Type} `{PyFloat F}.

(** [a.max()] and [a.min()] over the flattened entries; an empty array
    raises ValueError. *)
Definition amax (l : list F) : result F :=
  match l with
  | [] => Raise ValueError
  | x :: l' => Ok (fold_left py_max l' x)
  end.

Definition amin (l : list F) : result F :=
  match l with
  | [] => Raise ValueError
  | x :: l' => Ok (fold_left py_min l' x)
  end.

(** [np.abs(a).max()] *)
Definition abs_max (a : array2 F) : result F := amax (map fabs (concat a)).

(** [a / c] entry by entry. *)
Definition div_all (a : array2 F) (c : F) : result (array2 F) :=
  mapM (mapM (fun x => fdiv x c)) a.

(** Every [q]-th element, starting with the first. *)
Fixpoint every {A} (fuel : nat) (q : nat) (l : list A) : list A :=
  match fuel, l with
  | S fuel', x :: _ => x :: every fuel' q (skipn q l)
  | _, _ => []
  end.

(** [l[::q]]: a zero step raises ValueError. *)
Definition slice_step {A} (q : Z) (l : list A) : result (list A) :=
  if q =? 0 then Raise ValueError
  else if 0 <? q then Ok (every (length l) (Z.to_nat q) l)
  else Ok (every (length l) (Z.to_nat (- q)) (rev l)).

(** [a[::q, ::q]] *)
Definition slice2 {A} (q : Z) (a : list (list A)) : result (list (list A)) :=
  let? rows := slice_step q a in
  mapM (slice_step q) rows.

(** [a[:-1, :-1].flatten()] *)
Definition drop_last_flat {A} (a : list (list A)) : list A :=
  concat (map (@removelast A) (@removelast (list A) a)).

(** [int(len(l) / 2)] *)
Definition mid_index {A} (l : list A) : result Z :=
  let? h := fdiv (of_int (Z.of_nat (length l))) (of_int 2) in
  to_int h.

(** [np.array(eta_list)] needs snapshots of one shape. *)
Definition same_shape (a b : array2 F) : bool :=
  bool_decide (map (@length F) a = map (@length F) b).

Definition np_array (l : list (array2 F)) : result (list (array2 F)) :=
  match l with
  | [] => Ok []
  | a :: _ => if forallb (same_shape a) l then Ok l else Raise ValueError
  end.

(** The grids [pcolormesh(X, Y, C)] takes: [X] and [Y] of one shape, which
    is the shape of [C] (one point per cell) or one more along both axes
    (the corners of the cells). *)
Definition corner_shape (C : array2 F) : list nat :=
  replicate (S (length C)) (S (length (hd [] C))).

Definition grid_fits (X Y C : array2 F) : bool :=
  same_shape X Y
  && (same_shape X C || bool_decide (map (@length F) X = corner_shape C)).

End Numpy.

(** ** The pipelines *)

Section Pipelines.
Context {F : Type} `{PyFloat F}.

(** [plt.savefig] followed by [Image.open]: the rasteriser. *)
Variable render : figure F -> image.

(** [mcubes.marching_cubes_func(lower, upper, nx, ny, nz, f, iso)] *)
Variable marching_cubes_func :
  point3 F -> point3 F -> Z -> Z -> Z -> (F -> F -> F -> result F) -> F ->
  result (mesh F).

Definition Py (A : Type) : Type := M (state F) A.

(** *** Library calls *)

Definition modify_fig (f : figure F -> figure F) : Py unit :=
  fun s => (Ok tt, State (f (st_fig s)) (st_dirs s) (st_fs s) (st_log s)).

Definition new_figure : Py unit := modify_fig (fun _ => empty_figure).

Definition set_title (t : title F) : Py unit :=
  modify_fig (fun f =>
    Figure (Some t) (fig_xlabel f) (fig_ylabel f) (fig_zlabel f)
           (fig_artist f) (fig_colorbar f) (fig_xlim f) (fig_ylim f) (fig_zlim f)).

Definition set_labels (x y z : option string) : Py unit :=
  modify_fig (fun f =>
    Figure (fig_title f) (default (fig_xlabel f) x) (default (fig_ylabel f) y)
           (default (fig_zlabel f) z)
           (fig_artist f) (fig_colorbar f) (fig_xlim f) (fig_ylim f) (fig_zlim f)).

Definition set_artist (a : artist F) : Py unit :=
  modify_fig (fun f =>
    Figure (fig_title f) (fig_xlabel f) (fig_ylabel f) (fig_zlabel f)
           (Some a) (fig_colorbar f) (fig_xlim f) (fig_ylim f) (fig_zlim f)).

(** [plt.pcolormesh(X, Y, C, vmin=..., vmax=...)]: a grid that fits
    neither way is refused with TypeError. *)
Definition pcolormesh (X Y C : array2 F) (vmin vmax : F) : Py unit :=
  if grid_fits X Y C then set_artist (PColorMesh X Y (concat C) vmin vmax)
  else mraise TypeError.

Definition colorbar : Py unit :=
  modify_fig (fun f =>
    Figure (fig_title f) (fig_xlabel f) (fig_ylabel f) (fig_zlabel f)
           (fig_artist f) true (fig_xlim f) (fig_ylim f) (fig_zlim f)).

Definition set_lims (xl yl zl : F * F) : Py unit :=
  modify_fig (fun f =>
    Figure (fig_title f) (fig_xlabel f) (fig_ylabel f) (fig_zlabel f)
           (fig_artist f) (fig_colorbar f) (Some xl) (Some yl) (Some zl)).

(** [pmesh.set_array(C)] *)
Definition set_array (C : list F) : Py unit :=
  modify_fig (fun f =>
    match fig_artist f with
    | Some (PColorMesh X Y _ vmin vmax) =>
        Figure (fig_title f) (fig_xlabel f) (fig_ylabel f) (fig_zlabel f)
               (Some (PColorMesh X Y C vmin vmax)) (fig_colorbar f)
               (fig_xlim f) (fig_ylim f) (fig_zlim f)
    | _ => f
    end).

(** [Q.set_UVC(U, V)] *)
Definition set_UVC (U V : array2 F) : Py unit :=
  modify_fig (fun f =>
    match fig_artist f with
    | Some (Quiver X Y _ _ scale) =>
        Figure (fig_title f) (fig_xlabel f) (fig_ylabel f) (fig_zlabel f)
               (Some (Quiver X Y U V scale)) (fig_colorbar f)
               (fig_xlim f) (fig_ylim f) (fig_zlim f)
    | _ => f
    end).

(** [Path.mkdir(parents=True, exist_ok=True)] *)
Definition mkdir (path : string) : Py unit :=
  fun s => (Ok tt, State (st_fig s) ({[path]} ∪ st_dirs s) (st_fs s)
                         (st_log s ++ [EMkdir path])).

Definition savefig (path : string) : Py unit :=
  fun s =>
    let im := render (st_fig s) in
    (Ok tt, State (st_fig s) (st_dirs s) (<[path := FImage im]> (st_fs s))
                  (st_log s ++ [ESavefig path im])).

Definition image_open (path : string) : Py image :=
  fun s =>
    match st_fs s !! path with
    | Some (FImage im) => (Ok im, s)
    | _ => (Raise FileNotFoundError, s)
    end.

(** [cv2.VideoWriter(path, fourcc, fps, size)]; the handle is the path. *)
Definition VideoWriter (path fourcc : string) (fps : Z) (size : nat * nat)
  : Py string :=
  fun s =>
    (Ok path,
     State (st_fig s) (st_dirs s)
           (<[path := FVideo (Container fourcc fps size [] false)]> (st_fs s))
           (st_log s ++ [EVideoWriter path fourcc fps size])).

Definition append_frame (frame : image) (f : file F) : file F :=
  match f with
  | FVideo v =>
      FVideo (Container (vid_fourcc v) (vid_fps v) (vid_size v)
                        (vid_frames v ++ [frame]) (vid_released v))
  | _ => f
  end.

Definition close_video (f : file F) : file F :=
  match f with
  | FVideo v =>
      FVideo (Container (vid_fourcc v) (vid_fps v) (vid_size v)
                        (vid_frames v) true)
  | _ => f
  end.

(** [video.write(frame)] *)
Definition video_write (video : string) (frame : image) : Py unit :=
  fun s =>
    (Ok tt, State (st_fig s) (st_dirs s)
                  (alter (append_frame frame) video (st_fs s))
                  (st_log s ++ [EVideoWrite video frame])).

(** [video.release()] *)
Definition video_release (video : string) : Py unit :=
  fun s =>
    (Ok tt, State (st_fig s) (st_dirs s) (alter close_video video (st_fs s))
                  (st_log s ++ [EVideoRelease video])).

(** [mcubes.export_obj(vertices, triangles, path)] *)
Definition export_obj (m : mesh F) (path : string) : Py unit :=
  fun s =>
    (Ok tt, State (st_fig s) (st_dirs s) (<[path := FMesh m]> (st_fs s))
                  (st_log s ++ [EExportObj path m])).

(** Reading a local variable that may not have been assigned yet. *)
Definition local {A} (name : string) (v : option A) : Py A :=
  match v with
  | Some a => mret a
  | None => mraise (UnboundLocalError name)
  end.

(** *** The writer branches, shared by the three animation functions

    Lines 46-62, 139-155 and 192-208 are one text, up to the update
    function and the progress-bar caption. *)

(** The body of the [for i in range(...)] loop, over the indices left. *)
Fixpoint render_frames (update : Z -> Py unit)
    (frames_folder video_name fourcc : string) (FPS : Z)
    (idx : list nat) (video : option string) : Py (option string) :=
  match idx with
  | [] => mret video
  | i :: idx' =>
      update (Z.of_nat i) ;;
      let img_filename := frame_name frames_folder i in
      savefig img_filename ;;
      let! frame := image_open img_filename in
      let! video :=
        (if Nat.eqb i 0
         then let! v := VideoWriter video_name fourcc FPS (image_size frame) in
              mret (Some v)
         else mret video) in
      let! v := local "video" video in
      let! arr := lift (take_channels [2; 1; 0] frame) in
      video_write v arr ;;
      render_frames update frames_folder video_name fourcc FPS idx' video
  end.

(** [if writer == 'opencv':] *)
Definition opencv_writer (update : Z -> Py unit) (out_folder : string)
    (FPS : Z) (n : nat) : Py retval :=
  let frames_folder := path_join out_folder "frames" in
  mkdir frames_folder ;;
  let video_name := path_join out_folder "video.mp4" in
  let fourcc := "MP4V" in
  let! video :=
    render_frames update frames_folder video_name fourcc FPS (seq 0 n) None in
  (* cv2.destroyAllWindows() *)
  let! v := local "video" video in
  video_release v ;;
  mret (RInt 0).

(** [else:] the FuncAnimation and the FFMpegWriter are built, which
    touches no file; formatting the output name then reads [filename],
    which is no parameter, local or global of the module. *)
Definition ffmpeg_writer : Py retval :=
  (* anim = animation.FuncAnimation(...) *)
  (* mpeg_writer = animation.FFMpegWriter(...) *)
  mraise (NameError "filename").

(** [num*frame_interval/60] *)
Definition minutes (num : Z) (frame_interval : F) : result F :=
  fdiv (fmul (of_int num) frame_interval) (of_int 60).

(** *** eta_animation *)

Definition title_eta : string :=
  "Surface elevation $\eta$ after t = {:.4f} minutes".

Definition update_eta (eta_list : list (array2 F)) (frame_interval : F)
    (num : Z) : Py unit :=
  let! t := lift (minutes num frame_interval) in
  set_title (TitleFmt title_eta t) ;;
  let! eta := lift (getitem eta_list num) in
  set_array (drop_last_flat eta).

(** [np.abs(eta_list[int(len(eta_list)/2)]).max()] *)
Definition mid_magnitude (eta_list : list (array2 F)) : result F :=
  let? mid := mid_index eta_list in
  let? eta := getitem eta_list mid in
  abs_max eta.

Definition eta_animation (X Y : array2 F) (eta_list : list (array2 F))
    (frame_interval : F) (out_folder writer : string) (FPS : Z) : Py retval :=
  new_figure ;;
  set_labels (Some "x [m]") (Some "y [m]") None ;;
  let! eta0 := lift (getitem eta_list 0) in
  let! m := lift (mid_magnitude eta_list) in
  let vmin := fmul (literal (-7) 10) m in
  let! vmax := lift (mid_magnitude eta_list) in
  pcolormesh X Y eta0 vmin vmax ;;
  colorbar ;;
  if String.eqb writer "opencv"
  then opencv_writer (update_eta eta_list frame_interval) out_folder FPS
                     (length eta_list)
  else ffmpeg_writer.

(** *** eta_meshes *)

Definition get_mesh (i : nat) (eta : array2 F) (bounds : bbox F) (res : Z)
    (out_folder : string) : Py unit :=
  let! (resx, resy, resz) := lift (axis_resolutions res bounds) in
  let! m :=
    lift (marching_cubes_func (fst bounds) (snd bounds) resx resy resz
                              (sdf eta bounds) (of_int 0)) in
  export_obj m (mesh_name out_folder i).

(** [Parallel(n_jobs=MAX_THREADS)(tasks)]: every task runs in a worker of
    its own and touches the file system once, when it exports its mesh; a
    run is therefore an order [sched] in which the tasks complete.  The
    first task that raises ends the run. *)
Fixpoint Parallel (tasks : list (Py unit)) (sched : list nat) : Py unit :=
  match sched with
  | [] => mret tt
  | k :: sched' =>
      match tasks !! k with
      | Some task => task
      | None => mret tt
      end ;;
      Parallel tasks sched'
  end.

(** [delayed(get_mesh)(i, eta_list[i], bounds, res, meshes_folder)] *)
Definition mesh_task (eta_list : list (array2 F)) (bounds : bbox F) (res : Z)
    (meshes_folder : string) (i : nat) : Py unit :=
  let! eta := lift (getitem eta_list (Z.of_nat i)) in
  get_mesh i eta bounds res meshes_folder.

Definition eta_meshes (eta_list : list (array2 F)) (bounds : bbox F) (res : Z)
    (meshes_folder : string) (sched : list nat) : Py retval :=
  let n := length eta_list in
  mkdir meshes_folder ;;
  Parallel (map (mesh_task eta_list bounds res meshes_folder) (seq 0 n)) sched ;;
  mret (RInt 0).

(** *** velocity_animation *)

Definition title_velocity0 : string :=
  "Velocity field $\mathbf{u}(x,y)$ after 0.0 days".
Definition title_velocity : string :=
  "Velocity field $\mathbf{{u}}(x,y,t)$ after t = {:.4f} minutes".

(** [q_int]: 0.02 times the smaller of the two dimensions of [X], passed
    through [int()]. *)
Definition quiver_stride (X : array2 F) : result Z :=
  to_int (fmul (literal 2 100) (of_int (Z.min (shape0 X) (shape1 X)))).

Definition update_quiver (u_list v_list : list (array2 F)) (frame_interval : F)
    (q_int : Z) (num : Z) : Py unit :=
  let! u := lift (getitem u_list num) in
  let! v := lift (getitem v_list num) in
  let! t := lift (minutes num frame_interval) in
  set_title (TitleFmt title_velocity t) ;;
  let! us := lift (slice2 q_int u) in
  let! vs := lift (slice2 q_int v) in
  set_UVC us vs.

Definition velocity_animation (X Y : array2 F) (u_list v_list : list (array2 F))
    (frame_interval : F) (out_folder writer : string) (FPS : Z)
    (arrow_scale : F) : Py retval :=
  new_figure ;;
  set_title (TitleText title_velocity0) ;;
  set_labels (Some "x [km]") (Some "y [km]") None ;;
  let! q_int := lift (quiver_stride X) in
  let! Xs := lift (let? a := slice2 q_int X in div_all a (of_int 1000)) in
  let! Ys := lift (let? a := slice2 q_int Y in div_all a (of_int 1000)) in
  let! us := lift (let? u := getitem u_list 0 in slice2 q_int u) in
  let! vs := lift (let? v := getitem v_list 0 in slice2 q_int v) in
  set_artist (Quiver Xs Ys us vs arrow_scale) ;;
  if String.eqb writer "opencv"
  then opencv_writer (update_quiver u_list v_list frame_interval q_int)
                     out_folder FPS (length u_list)
  else ffmpeg_writer.

(** *** eta_animation3D *)

Definition title_surf : string :=
  "Surface elevation $\eta(x,y,t)$ after $t={:.4f}$ minutes".

(** [(a.min()/1000, a.max()/1000)] *)
Definition km_range (a : array2 F) : result (F * F) :=
  let? lo := amin (concat a) in
  let? lo := fdiv lo (of_int 1000) in
  let? hi := amax (concat a) in
  let? hi := fdiv hi (of_int 1000) in
  Ok (lo, hi).

Definition update_surf (X Y : array2 F) (eta_list : list (array2 F))
    (frame_interval : F) (vmin vmax : F) (num : Z) : Py unit :=
  (* ax.clear() *)
  new_figure ;;
  let! Xk := lift (div_all X (of_int 1000)) in
  let! Yk := lift (div_all Y (of_int 1000)) in
  let! eta := lift (getitem eta_list num) in
  set_artist (Surface Xk Yk eta "RdBu_r" (Some (vmin, vmax))) ;;
  let! t := lift (minutes num frame_interval) in
  set_title (TitleFmt title_surf t) ;;
  set_labels (Some "x [km]") (Some "y [km]") (Some "$\eta$ [m]") ;;
  let! xl := lift (km_range X) in
  let! yl := lift (km_range Y) in
  set_lims xl yl (literal (-3) 10, literal 7 10).

Definition eta_animation3D (X Y : array2 F) (eta_list : list (array2 F))
    (frame_interval : F) (out_folder writer : string) (FPS : Z) : Py retval :=
  new_figure ;;
  let! eta0 := lift (getitem eta_list 0) in
  set_artist (Surface X Y eta0 "Blues" None) ;;
  let! eta_list := lift (np_array eta_list) in
  let! vmin := lift (amin (concat (concat eta_list))) in
  let! vmax := lift (amax (concat (concat eta_list))) in
  if String.eqb writer "opencv"
  then opencv_writer (update_surf X Y eta_list frame_interval vmin vmax)
                     out_folder FPS (length eta_list)
  else ffmpeg_writer.

End Pipelines.

(** A state with nothing drawn and nothing on disk. *)
Definition initial_state {F} : state F := State empty_figure ∅ ∅ [].

(** ** Reference definitions used by the statements *)

(** The per-axis resolution as the specification writes it:
    [int(res * extent / rg)], multiplying before dividing. *)
Definition axis_res_spec {F} `{PyFloat F} (res : Z) (rg extent : F) : result Z :=
  let? q := fdiv (fmul (of_int res) extent) rg in
  to_int q.

(** The index [sdf] computes along one axis of length [n]:
    [int((n - 1) * (c - lo) / (hi - lo))]. *)
Definition axis_index {F} `{PyFloat F} (n : Z) (lo hi c : F) : result Z :=
  let? t := fdiv (fmul (of_int (n - 1)) (fsub c lo)) (fsub hi lo) in
  to_int t.

(** The scalar field as the specification words it: the height of the
    nearest cell, minus [z]; the nearest index is [int(t + 0.5)]. *)
Definition sdf_nearest {F} `{PyFloat F} (eta : array2 F) (b : bbox F)
    (x y z : F) : result F :=
  let '((x_min, y_min, z_min), (x_max, y_max, z_max)) := b in
  let? cx := fdiv (fmul (of_int (shape0 eta - 1)) (fsub x x_min))
                  (fsub x_max x_min) in
  let? col := to_int (fsub cx (literal (-1) 2)) in
  let? ry := fdiv (fmul (of_int (shape1 eta - 1)) (fsub y y_min))
                  (fsub y_max y_min) in
  let? row := to_int (fsub ry (literal (-1) 2)) in
  let? h := getitem2 eta col row in
  Ok (fsub h z).

(** The number a string of decimal digits denotes. *)
Definition digits_value (s : string) : N :=
  fold_left (fun acc c => (10 * acc + (N_of_ascii c - 48))%N)
            (list_ascii_of_string s) 0%N.

(** ** What a run of the frame loop leaves behind *)

Section FrameTrace.
Context {F : Type}.
Variable render : figure F -> image.
(** The figure that is rasterised at index [i]. *)
Variable frame_fig : nat -> figure F.
Variables (frames_folder video_name fourcc : string) (FPS : Z).

Definition frame_image (i : nat) : image := render (frame_fig i).

(** The calls of iteration [i]. *)
Definition frame_events (i : nat) : list (effect F) :=
  (ESavefig (frame_name frames_folder i) (frame_image i) ::
   (if Nat.eqb i 0
    then [EVideoWriter video_name fourcc FPS (image_size (frame_image i))]
    else []) ++
   [EVideoWrite video_name (bgr (frame_image i))])%list.

(** The files after iteration [i]. *)
Definition frame_files (i : nat) (fs : gmap string (file F))
  : gmap string (file F) :=
  let fs1 := <[frame_name frames_folder i := FImage (frame_image i)]> fs in
  let fs2 :=
    if Nat.eqb i 0
    then <[video_name :=
             FVideo (Container fourcc FPS (image_size (frame_image i)) [] false)]> fs1
    else fs1 in
  alter (append_frame (bgr (frame_image i))) video_name fs2.

Definition frame_step (i : nat) (s : state F) : state F :=
  State (frame_fig i) (st_dirs s) (frame_files i (st_fs s))
        (st_log s ++ frame_events i)%list.

Definition frames_run (idx : list nat) (s : state F) : state F :=
  fold_left (fun s i => frame_step i s) idx s.

(** The video file once frames [0 .. n-1] are in. *)
Definition video_of_frames (n : nat) (released : bool) : container :=
  Container fourcc FPS (image_size (frame_image 0))
            (map (fun i => bgr (frame_image i)) (seq 0 n)) released.

End FrameTrace.

(** The paths of the images written, the containers opened and the frames
    appended, read off a log. *)
Definition saved_paths {F} (log : list (effect F)) : list string :=
  omap (fun e => match e with ESavefig p _ => Some p | _ => None end) log.

Definition opened_videos {F} (log : list (effect F))
  : list (string * string * Z * (nat * nat)) :=
  omap (fun e => match e with
                 | EVideoWriter p c fps size => Some (p, c, fps, size)
                 | _ => None
                 end) log.

Definition written_frames {F} (log : list (effect F)) : list image :=
  omap (fun e => match e with EVideoWrite _ im => Some im | _ => None end) log.

Definition exported_meshes {F} (log : list (effect F)) : list (string * mesh F) :=
  omap (fun e => match e with EExportObj p m => Some (p, m) | _ => None end) log.

Definition saved_images {F} (log : list (effect F)) : list image :=
  omap (fun e => match e with ESavefig _ im => Some im | _ => None end) log.

(** The colour limits of the artist in a figure, if it has any. *)
Definition artist_clim {F} (f : figure F) : option (F * F) :=
  match fig_artist f with
  | Some (PColorMesh _ _ _ vmin vmax) => Some (vmin, vmax)
  | Some (Surface _ _ _ _ clim) => clim
  | _ => None
  end.

(** The state a successful [opencv_writer] ends in, when [frame_fig i] is
    the figure rasterised at index [i]. *)
Definition opencv_run {F} (render : figure F -> image) (frame_fig : nat -> figure F)
    (out_folder : string) (FPS : Z) (n : nat) (s : state F) : state F :=
  let frames_folder := path_join out_folder "frames" in
  let video_name := path_join out_folder "video.mp4" in
  let s0 := State (st_fig s) ({[frames_folder]} ∪ st_dirs s) (st_fs s)
                  (st_log s ++ [EMkdir frames_folder])%list in
  let s1 := frames_run render frame_fig frames_folder video_name "MP4V" FPS
                       (seq 0 n) s0 in
  State (st_fig s1) (st_dirs s1) (alter close_video video_name (st_fs s1))
        (st_log s1 ++ [EVideoRelease video_name])%list.

(** The calls of a successful [opencv_writer], in order. *)
Definition opencv_log {F} (render : figure F -> image) (frame_fig : nat -> figure F)
    (out_folder : string) (FPS : Z) (n : nat) : list (effect F) :=
  let frames_folder := path_join out_folder "frames" in
  let video_name := path_join out_folder "video.mp4" in
  (EMkdir frames_folder ::
   concat (map (frame_events render frame_fig frames_folder video_name "MP4V" FPS)
               (seq 0 n)) ++
   [EVideoRelease video_name])%list.

(** The figure [eta_animation] rasterises at index [i], for colour limits
    [vmin] and [vmax]. *)
Definition eta_frame (X Y : array2 Q) (eta_list : list (array2 Q))
    (frame_interval vmin vmax : Q) (i : nat) : figure Q :=
  Figure (Some (TitleFmt title_eta
                  (inject_Z (Z.of_nat i) * frame_interval / inject_Z 60)%Q))
         "x [m]" "y [m]" ""
         (Some (PColorMesh X Y (drop_last_flat (nth i eta_list [])) vmin vmax))
         true None None None.

(** A computation that returns rather than raises. *)
Definition is_ok {A} (r : result A) : Prop := exists a, r = Ok a.

(** The fallible steps each animation function takes before it looks at
    [writer]: the plot set-up, with the arrays of its plotting call
    fitting one another ([quiver] and [plot_surface] are given arrays of
    one shape). *)
Definition eta_setup_ok {F} `{PyFloat F} (X Y : array2 F)
    (eta_list : list (array2 F)) : Prop :=
  (exists eta0, getitem eta_list 0 = Ok eta0 /\ grid_fits X Y eta0 = true) /\
  is_ok (mid_magnitude eta_list).

Definition velocity_setup_ok {F} `{PyFloat F} (X Y : array2 F)
    (u_list v_list : list (array2 F)) : Prop :=
  exists (q_int : Z) (Xs Ys us vs : array2 F),
    quiver_stride X = Ok q_int /\
    (let? a := slice2 q_int X in div_all a (of_int 1000)) = Ok Xs /\
    (let? a := slice2 q_int Y in div_all a (of_int 1000)) = Ok Ys /\
    (let? u := getitem u_list 0 in slice2 q_int u) = Ok us /\
    (let? v := getitem v_list 0 in slice2 q_int v) = Ok vs /\
    same_shape Xs Ys = true /\ same_shape Xs us = true /\
    same_shape Xs vs = true.

Definition surf_setup_ok {F} `{PyFloat F} (X Y : array2 F)
    (eta_list : list (array2 F)) : Prop :=
  (exists eta0, getitem eta_list 0 = Ok eta0 /\
                same_shape X eta0 = true /\ same_shape Y eta0 = true) /\
  exists arr,
    np_array eta_list = Ok arr /\
    is_ok (amin (concat (concat arr))) /\ is_ok (amax (concat (concat arr))).

(** The figure [eta_animation3D] rasterises at index [i]. *)
Definition surf_frame (X Y : array2 Q) (eta_list : list (array2 Q))
    (frame_interval vmin vmax : Q) (xl yl : Q * Q) (i : nat) : figure Q :=
  Figure (Some (TitleFmt title_surf
                  (inject_Z (Z.of_nat i) * frame_interval / inject_Z 60)%Q))
         "x [km]" "y [km]" "$\eta$ [m]"
         (Some (Surface (map (map (fun x => x / inject_Z 1000)%Q) X)
                        (map (map (fun y => y / inject_Z 1000)%Q) Y)
                        (nth i eta_list []) "RdBu_r" (Some (vmin, vmax))))
         false (Some xl) (Some yl) (Some ((-3 # 10)%Q, (7 # 10)%Q)).

(** What [get_mesh] computes before it writes: a function of one snapshot,
    the bounds and the resolution. *)
Definition extract_mesh {F} `{PyFloat F}
    (marching_cubes_func :
       point3 F -> point3 F -> Z -> Z -> Z -> (F -> F -> F -> result F) -> F ->
       result (mesh F))
    (eta : array2 F) (bounds : bbox F) (res : Z) : result (mesh F) :=
  let? (resx, resy, resz) := axis_resolutions res bounds in
  marching_cubes_func (fst bounds) (snd bounds) resx resy resz
                      (sdf eta bounds) (of_int 0).

(** The state after the mesh tasks completed in the order [sched], task
    [k] exporting [nth k ms]. *)
Definition meshes_run {F} (meshes_folder : string) (ms : list (mesh F))
    (sched : list nat) (s : state F) : state F :=
  fold_left
    (fun s k =>
       State (st_fig s) (st_dirs s)
             (<[mesh_name meshes_folder k := FMesh (nth k ms ([], []))]> (st_fs s))
             (st_log s ++ [EExportObj (mesh_name meshes_folder k) (nth k ms ([], []))])%list)
    sched s.

(** ** The static plots *)

Section StaticPlots.
Context {F : Type} `{PyFloat F}.

(** [np.meshgrid(x, t)]: two arrays of shape (len t, len x). *)
Definition meshgrid (x t : list F) : array2 F * array2 F :=
  (map (fun _ => x) t, map (fun ti => map (fun _ => ti) x) t).

(** Column [j] of a 2D array, and [np.transpose]. *)
Definition column {A} (j : nat) (a : list (list A)) : list A :=
  omap (fun row => row !! j) a.

Definition transpose {A} (a : list (list A)) : list (list A) :=
  map (fun j => column j a) (seq 0 (length (hd [] a))).

(** [np.array(rows)] on a list of rows needs rows of one length. *)
Definition np_array2 (rows : list (list F)) : result (array2 F) :=
  match rows with
  | [] => Ok []
  | r :: _ =>
      if forallb (fun r' => Nat.eqb (length r') (length r)) rows
      then Ok rows else Raise ValueError
  end.

(** Lines 253-266. *)
Definition hovmuller_plot (x t : list F) (eta : list (list F))
  : M (state F) unit :=
  let '(X, T) := meshgrid x t in
  let X := transpose X in
  let T := transpose T in
  let! arr := lift (np_array2 eta) in
  let eta_hm := transpose arr in
  new_figure ;;
  let! vmin := lift (amin (concat eta_hm)) in
  let! vmax := lift (amax (concat eta_hm)) in
  pcolormesh X T eta_hm vmin vmax ;;
  colorbar ;;
  set_title (TitleText "x-t plot for middle of domain") ;;
  set_labels (Some "x [m]") (Some "t [s]") None.

(** Lines 242-251; the quiver key adds no data. *)
Definition quiver_plot (X Y U V : array2 F) (plot_title : string)
  : M (state F) unit :=
  new_figure ;;
  set_title (TitleText plot_title) ;;
  set_labels (Some "x [m]") (Some "y [m]") None ;;
  let! Xs := lift (slice2 4 X) in
  let! Ys := lift (slice2 4 Y) in
  let! Us := lift (slice2 4 U) in
  let! Vs := lift (slice2 4 V) in
  set_artist (Quiver Xs Ys Us Vs (literal 2 1000)).

End StaticPlots.

(** [a[::q, ::q]] for a stride [q >= 1], in closed form. *)
Definition subsample {A} (q : nat) (a : list (list A)) : list (list A) :=
  map (fun row => every (length row) q row) (every (length a) q a).

(** The figure [velocity_animation] rasterises at index [i]: the grids and
    the velocity components thinned by the stride [q]. *)
Definition quiver_frame (X Y : array2 Q) (u_list v_list : list (array2 Q))
    (frame_interval arrow_scale : Q) (q : nat) (i : nat) : figure Q :=
  Figure (Some (TitleFmt title_velocity
                  (inject_Z (Z.of_nat i) * frame_interval / inject_Z 60)%Q))
         "x [km]" "y [km]" ""
         (Some (Quiver (map (map (fun x => x / inject_Z 1000)%Q) (subsample q X))
                       (map (map (fun y => y / inject_Z 1000)%Q) (subsample q Y))
                       (subsample q (nth i u_list []))
                       (subsample q (nth i v_list []))
                       arrow_scale))
         false None None None.

(** The state the opencv branch is left in when the update raises at index
    [k] after [k] good iterations: the directory, [k] frames, and a video
    that was never released. *)
Definition opencv_aborted {F} (render : figure F -> image)
    (frame_fig : nat -> figure F) (out_folder : string) (FPS : Z) (k : nat)
    (f' : figure F) (s : state F) : state F :=
  let frames_folder := path_join out_folder "frames" in
  let video_name := path_join out_folder "video.mp4" in
  let s0 := State (st_fig s) ({[frames_folder]} ∪ st_dirs s) (st_fs s)
                  (st_log s ++ [EMkdir frames_folder])%list in
  let s1 := frames_run render frame_fig frames_folder video_name "MP4V" FPS
                       (seq 0 k) s0 in
  State f' (st_dirs s1) (st_fs s1) (st_log s1).

(** The videos a log releases. *)
Definition released_videos {F} (log : list (effect F)) : list string :=
  omap (fun e => match e with EVideoRelease p => Some p | _ => None end) log.

(** * Verification *)

(** ** Exact arithmetic *)

Lemma Qtrunc_nonneg (q : Q) : (0 <= q)%Q -> Qtrunc q = Qfloor q.
Proof.
  destruct q as [n d]. unfold Qle, Qtrunc, Qfloor. simpl. intros Hn.
  apply Z.quot_div_nonneg; lia.
Qed.

Lemma Qtrunc_neg (q : Q) : (q <= 0)%Q -> Qtrunc q = (- Qfloor (- q))%Z.
Proof.
  destruct q as [n d]. unfold Qle, Qtrunc, Qfloor. simpl. intros Hn.
  rewrite <- (Z.opp_involutive n) at 1. rewrite Z.quot_opp_l by lia.
  f_equal. apply Z.quot_div_nonneg; lia.
Qed.

Lemma Q_fdiv_ok (a b : Q) : ~ (b == 0)%Q -> fdiv a b = Ok (a / b)%Q.
Proof.
  intros Hb. simpl. destruct (Qeq_bool b 0) eqn:E; [|reflexivity].
  apply Qeq_bool_eq in E. contradiction.
Qed.

Lemma Q_flt_spec (a b : Q) : flt a b = true <-> (a < b)%Q.
Proof.
  simpl. rewrite negb_true_iff. split.
  - intros E. apply Qnot_le_lt. intros Hle. apply Qle_bool_iff in Hle. congruence.
  - intros Hlt. destruct (Qle_bool b a) eqn:E; [|reflexivity].
    apply Qle_bool_iff in E. exfalso. exact (Qlt_not_le _ _ Hlt E).
Qed.

Lemma Q_py_max_spec (a b : Q) :
  (a <= py_max a b)%Q /\ (b <= py_max a b)%Q /\ (py_max a b = a \/ py_max a b = b).
Proof.
  unfold py_max. destruct (flt a b) eqn:E.
  - apply Q_flt_spec in E. repeat split; auto using Qlt_le_weak, Qle_refl.
  - repeat split; auto using Qle_refl.
    apply Qnot_lt_le. intros Hlt. apply Q_flt_spec in Hlt. congruence.
Qed.

Lemma Q_py_min_spec (a b : Q) :
  (py_min a b <= a)%Q /\ (py_min a b <= b)%Q /\ (py_min a b = a \/ py_min a b = b).
Proof.
  unfold py_min. destruct (flt b a) eqn:E.
  - apply Q_flt_spec in E. repeat split; auto using Qlt_le_weak, Qle_refl.
  - repeat split; auto using Qle_refl.
    apply Qnot_lt_le. intros Hlt. apply Q_flt_spec in Hlt. congruence.
Qed.

(** ** Per-axis voxel resolution *)

(** C5.  On binary64 the code misses what the claim says of the largest
    axis.  It divides first: for [res = 128] on a box of extent
    49 x 49 x 2 it computes [int(128 / 49 * 49) = 127] on the two largest
    axes, where the formula of the claim, [int(128 * 49 / 49)], gives
    [128] on the same floats. *)
Theorem axis_resolutions_binary64_shortfall :
  let b : bbox float := ((0, 0, -1), (49, 49, 1))%float in
  largest_extent b = 49%float /\
  axis_resolutions 128 b = Ok (127, 127, 5) /\
  axis_res_spec 128 (largest_extent b) 49%float = Ok 128 /\
  axis_res 128 (largest_extent b) 49%float <>
    axis_res_spec 128 (largest_extent b) 49%float.
Proof.
  repeat split; try (vm_compute; reflexivity).
  vm_compute. discriminate.
Qed.

(** ** The scalar field of the isosurface *)

Lemma getitem_in_range {A} (l : list A) (z : Z) :
  0 <= z < Z.of_nat (length l) ->
  exists x, l !! Z.to_nat z = Some x /\ getitem l z = Ok x.
Proof.
  intros Hz. unfold getitem, np_index.
  destruct (Z.leb_spec 0 z); [|lia]. destruct (Z.ltb_spec z (Z.of_nat (length l))); [|lia].
  simpl. destruct (lookup_lt_is_Some_2 l (Z.to_nat z)) as [x Hx]; [lia|].
  exists x. rewrite Hx. auto.
Qed.

Lemma getitem_out_of_range {A} (l : list A) (z : Z) :
  Z.of_nat (length l) <= z \/ z < - Z.of_nat (length l) ->
  getitem l z = Raise IndexError.
Proof.
  intros Hz. unfold getitem, np_index.
  destruct (Z.leb_spec 0 z), (Z.ltb_spec z (Z.of_nat (length l))),
    (Z.leb_spec (- Z.of_nat (length l)) z), (Z.ltb_spec z 0);
    cbn; try reflexivity; lia.
Qed.

Lemma getitem_negative {A} (l : list A) (z : Z) :
  - Z.of_nat (length l) <= z < 0 ->
  exists x, l !! Z.to_nat (Z.of_nat (length l) + z) = Some x /\ getitem l z = Ok x.
Proof.
  intros Hz. unfold getitem, np_index.
  destruct (Z.leb_spec 0 z); [lia|].
  destruct (Z.leb_spec (- Z.of_nat (length l)) z); [|lia].
  destruct (Z.ltb_spec z 0); [|lia]. cbn.
  destruct (lookup_lt_is_Some_2 l (Z.to_nat (Z.of_nat (length l) + z)))
    as [x Hx]; [lia|].
  exists x. rewrite Hx. auto.
Qed.

(** [sdf] in terms of the two indices it computes. *)
Lemma sdf_axis_index {F : Type} `{PyFloat F} (eta : array2 F)
    (x_min y_min z_min x_max y_max z_max x y z : F) :
  sdf eta ((x_min, y_min, z_min), (x_max, y_max, z_max)) x y z
  = (let? col := axis_index (shape0 eta) x_min x_max x in
     let? row := axis_index (shape1 eta) y_min y_max y in
     let? h := getitem2 eta col row in
     Ok (fsub h z)).
Proof.
  unfold sdf, axis_index.
  destruct (fdiv (fmul (of_int (shape0 eta - 1)) (fsub x x_min))
                 (fsub x_max x_min)) as [cx|e]; [|reflexivity].
  cbn [rbind]. destruct (to_int cx) as [col|e]; [|reflexivity].
  cbn [rbind].
  destruct (fdiv (fmul (of_int (shape1 eta - 1)) (fsub y y_min))
                 (fsub y_max y_min)) as [ry|e]; reflexivity.
Qed.

Lemma rectangular_shape1 {A} (a : list (list A)) (n0 n1 : nat) (line : list A)
    (i : nat) :
  rectangular a n0 n1 -> a !! i = Some line ->
  shape1 a = Z.of_nat (length line).
Proof.
  intros [_ Hrows] Hline. unfold shape1.
  rewrite (Forall_lookup_1 _ _ _ _ Hrows Hline).
  destruct a as [|r0 a']; [now rewrite lookup_nil in Hline|].
  cbn. inversion Hrows; subst. congruence.
Qed.




(** The second part of C3, zero at the position of a sample, is out of the
    program's reach on binary64: with 50 rows over [0, 1], the position of
    row 1 is [1/49], whose proportional index [49 * (1/49)] rounds to just
    under 1, so the code reads row 0. *)
Lemma sdf_binary64_sample_miss :
  let eta : array2 float := map (fun k => [f64_of_Z (Z.of_nat k)]) (seq 0 50) in
  let b : bbox float := ((0, 0, -1), (1, 1, 60))%float in
  getitem2 eta 1 0 = Ok 1%float /\
  sdf eta b (1 / 49)%float 0%float 1%float = Ok (-1)%float.
Proof. split; vm_compute; reflexivity. Qed.

(** ** File names *)

Lemma list_ascii_of_string_app (a b : string) :
  list_ascii_of_string (a ++ b) =
  (list_ascii_of_string a ++ list_ascii_of_string b)%list.
Proof. induction a as [|c a IH]; [reflexivity|]. cbn. now rewrite <- IH. Qed.

Lemma string_app_inv_tail (a b t : string) : (a ++ t = b ++ t)%string -> a = b.
Proof.
  intros E. apply (f_equal list_ascii_of_string) in E.
  rewrite !list_ascii_of_string_app in E. apply app_inv_tail in E.
  rewrite <- (string_of_list_ascii_of_string a), <- (string_of_list_ascii_of_string b).
  now rewrite E.
Qed.

Lemma string_length_app (a b : string) :
  String.length (a ++ b) = (String.length a + String.length b)%nat.
Proof. induction a as [|c a IH]; [reflexivity|]. cbn. now rewrite <- IH. Qed.

Lemma string_length_of_list (l : list ascii) :
  String.length (string_of_list_ascii l) = length l.
Proof. induction l as [|c l IH]; [reflexivity|]. cbn. now rewrite IH. Qed.

Lemma lsd_digits_length (fuel k : nat) (n : N) :
  (n < 10 ^ N.of_nat (S k))%N -> (length (lsd_digits fuel n) <= S k)%nat.
Proof.
  revert k n. induction fuel as [|fuel IH]; intros k n Hn; [cbn; lia|].
  cbn [lsd_digits length]. destruct (N.eqb_spec (n / 10) 0) as [E | E]; [cbn; lia|].
  destruct k as [|k].
  - exfalso. apply E. apply N.div_small. exact Hn.
  - apply le_n_S. apply IH.
    apply N.Div0.div_lt_upper_bound.
    rewrite <- N.pow_succ_r'. now rewrite <- Nat2N.inj_succ.
Qed.

Lemma lsd_digits_lt10 (fuel : nat) (n : N) :
  Forall (fun d => (d < 10)%N) (lsd_digits fuel n).
Proof.
  revert n. induction fuel as [|fuel IH]; intros n; [constructor|].
  cbn [lsd_digits]. constructor.
  - apply N.mod_lt. discriminate.
  - destruct (n / 10 =? 0)%N; [constructor | apply IH].
Qed.

Lemma lsd_digits_value (fuel : nat) (n : N) :
  (n < 2 ^ N.of_nat fuel)%N ->
  fold_right (fun d acc => (d + 10 * acc)%N) 0%N (lsd_digits fuel n) = n.
Proof.
  revert n. induction fuel as [|fuel IH]; intros n Hn.
  - cbn in *. lia.
  - cbn [lsd_digits fold_right].
    pose proof (N.div_mod n 10 ltac:(discriminate)) as Hdm.
    destruct (N.eqb_spec (n / 10) 0) as [E | E].
    + cbn. rewrite E in Hdm. lia.
    + rewrite IH; [lia|].
      rewrite Nat2N.inj_succ, N.pow_succ_r' in Hn.
      apply N.Div0.div_lt_upper_bound. lia.
Qed.

Lemma digit_char_value (d : N) : (d < 10)%N -> (N_of_ascii (digit_char d) - 48)%N = d.
Proof.
  intros Hd. unfold digit_char. rewrite N_ascii_embedding; lia.
Qed.

Lemma digits_value_str_of_N (n : N) : digits_value (str_of_N n) = n.
Proof.
  unfold digits_value, str_of_N. rewrite list_ascii_of_string_of_list_ascii.
  set (fuel := S (N.to_nat (N.log2 n))).
  rewrite <- (lsd_digits_value fuel n) at 2.
  - pose proof (lsd_digits_lt10 fuel n) as Hlt.
    induction Hlt as [|d l Hd Hl IH]; [reflexivity|].
    cbn [rev map fold_right]. rewrite map_app, fold_left_app. cbn [map fold_left].
    rewrite IH, digit_char_value by assumption. lia.
  - subst fuel. rewrite Nat2N.inj_succ, N2Nat.id.
    destruct (N.eq_dec n 0%N) as [-> | Hn0]; [reflexivity|].
    apply N.log2_spec. lia.
Qed.

Lemma digits_value_zfill (w : nat) (s : string) :
  digits_value (zfill w s) = digits_value s.
Proof.
  unfold digits_value, zfill.
  rewrite list_ascii_of_string_app, list_ascii_of_string_of_list_ascii, fold_left_app.
  f_equal. induction (w - String.length s)%nat as [|k IH]; [reflexivity|].
  cbn [replicate fold_left]. exact IH.
Qed.

Lemma format_08d_value (i : nat) : digits_value (format_08d i) = N.of_nat i.
Proof. unfold format_08d. now rewrite digits_value_zfill, digits_value_str_of_N. Qed.

Lemma format_08d_inj (i j : nat) : format_08d i = format_08d j -> i = j.
Proof.
  intros E. apply (f_equal digits_value) in E.
  rewrite !format_08d_value in E. lia.
Qed.

(** Eight digits exactly, up to index 99999999. *)
Lemma format_08d_length (i : nat) :
  (N.of_nat i < 100000000)%N -> String.length (format_08d i) = 8%nat.
Proof.
  intros Hi. unfold format_08d, zfill.
  rewrite string_length_app, string_length_of_list, length_replicate.
  assert (String.length (str_of_N (N.of_nat i)) <= 8)%nat; [|lia].
  unfold str_of_N. rewrite string_length_of_list, length_map, length_rev.
  apply (lsd_digits_length _ 7). exact Hi.
Qed.

Lemma frame_name_inj (folder : string) (i j : nat) :
  frame_name folder i = frame_name folder j -> i = j.
Proof.
  unfold frame_name, path_join. intros E.
  do 3 apply String.app_inj in E.
  apply string_app_inv_tail in E. now apply format_08d_inj.
Qed.

Lemma mesh_name_inj (folder : string) (i j : nat) :
  mesh_name folder i = mesh_name folder j -> i = j.
Proof.
  unfold mesh_name, path_join. intros E.
  do 3 apply String.app_inj in E.
  apply string_app_inv_tail in E. now apply format_08d_inj.
Qed.

Lemma frame_name_not_video (out_folder : string) (i : nat) :
  frame_name (path_join out_folder "frames") i <> path_join out_folder "video.mp4".
Proof.
  unfold frame_name, path_join. intros E.
  apply (f_equal list_ascii_of_string) in E.
  rewrite !list_ascii_of_string_app in E. rewrite <- !app_assoc in E.
  apply app_inv_head in E. discriminate E.
Qed.

Lemma frame_names_NoDup (folder : string) (n : nat) :
  NoDup (map (frame_name folder) (seq 0 n)).
Proof.
  apply NoDup_fmap_2; [|apply NoDup_seq].
  intros i j. apply frame_name_inj.
Qed.

(** ** The frame loop *)

Lemma mapM_map {A B} (f : A -> result B) (g : A -> B) (l : list A) :
  Forall (fun x => f x = Ok (g x)) l -> mapM f l = Ok (map g l).
Proof.
  induction 1 as [|x l Hx Hl IH]; [reflexivity|].
  cbn [mapM map]. rewrite Hx, IH. reflexivity.
Qed.

Lemma getitem_nth (px : pixel) (k : nat) :
  (k < length px)%nat -> getitem px (Z.of_nat k) = Ok (nth k px 0).
Proof.
  intros Hk. destruct (getitem_in_range px (Z.of_nat k)) as (x & Hx & ->); [lia|].
  rewrite Nat2Z.id in Hx. f_equal. symmetry. now apply nth_lookup_Some.
Qed.

(** Reordering the channels of a frame with at least three of them. *)
Lemma take_channels_bgr (im : image) :
  has_rgb im -> take_channels [2; 1; 0] im = Ok (bgr im).
Proof.
  intros Him. unfold take_channels, bgr.
  apply mapM_map. eapply Forall_impl; [exact Him|]. intros row Hrow.
  apply mapM_map. eapply Forall_impl; [exact Hrow|]. intros px Hpx.
  cbn [mapM]. cbv beta in Hpx.
  pose proof (getitem_nth px 2 ltac:(lia)) as E2.
  pose proof (getitem_nth px 1 ltac:(lia)) as E1.
  pose proof (getitem_nth px 0 ltac:(lia)) as E0.
  change (Z.of_nat 2) with 2 in E2. change (Z.of_nat 1) with 1 in E1.
  change (Z.of_nat 0) with 0 in E0.
  rewrite E2, E1, E0. reflexivity.
Qed.

(** On a pixel with red, green, blue and possibly alpha, the frame that is
    appended carries blue, green, red. *)
Lemma bgr_pixel_rgb (r g b : Z) (rest : list Z) :
  bgr_pixel (r :: g :: b :: rest) = [b; g; r].
Proof. reflexivity. Qed.

Section FrameLoop.
Context {F : Type} `{PyFloat F}.
Variable render : figure F -> image.
Variable update : Z -> M (state F) unit.
Variable frame_fig : nat -> figure F.
Variable Inv : figure F -> Prop.
Variables (frames_folder video_name fourcc : string) (FPS : Z) (n : nat).

Hypothesis update_spec : forall (i : nat) (s : state F),
  (i < n)%nat -> Inv (st_fig s) ->
  update (Z.of_nat i) s
    = (Ok tt, State (frame_fig i) (st_dirs s) (st_fs s) (st_log s))
  /\ Inv (frame_fig i).
Hypothesis render_rgb : forall i, (i < n)%nat -> has_rgb (render (frame_fig i)).
Hypothesis names_apart : forall i, frame_name frames_folder i <> video_name.

Local Abbreviation step := (frame_step render frame_fig frames_folder video_name fourcc FPS).
Local Abbreviation run := (frames_run render frame_fig frames_folder video_name fourcc FPS).

Lemma render_frames_step (i : nat) (idx : list nat) (video : option string)
    (s : state F) :
  (i < n)%nat -> Inv (st_fig s) -> (i <> 0%nat -> video = Some video_name) ->
  render_frames render update frames_folder video_name fourcc FPS (i :: idx) video s
  = render_frames render update frames_folder video_name fourcc FPS idx
      (Some video_name) (step i s)
  /\ Inv (st_fig (step i s)).
Proof.
  intros Hi HI Hv. destruct (update_spec i s Hi HI) as [Eu HI'].
  split; [|exact HI'].
  cbn [render_frames]. unfold mbind at 1. rewrite Eu.
  unfold mbind at 1, savefig at 1. cbn [st_fig st_dirs st_fs st_log].
  unfold mbind at 1, image_open at 1. cbn [st_fs]. rewrite lookup_insert_eq.
  pose proof (take_channels_bgr _ (render_rgb i Hi)) as Ebgr.
  destruct (Nat.eqb_spec i 0) as [-> | Hi0].
  - unfold mbind at 1. unfold mbind at 1, VideoWriter at 1.
    cbn [st_fig st_dirs st_fs st_log mret local].
    unfold mbind at 1, mret at 1.
    unfold mbind at 1, lift at 1. rewrite Ebgr.
    unfold mbind at 1, video_write at 1. cbn [st_fig st_dirs st_fs st_log].
    unfold frame_step, frame_files, frame_events, frame_image.
    cbn [Nat.eqb st_fig st_dirs st_fs st_log]. rewrite <- !app_assoc. reflexivity.
  - rewrite (Hv Hi0).
    unfold mbind at 1, mret at 1. cbn [local].
    unfold mbind at 1, mret at 1.
    unfold mbind at 1, lift at 1. rewrite Ebgr.
    unfold mbind at 1, video_write at 1. cbn [st_fig st_dirs st_fs st_log].
    unfold frame_step, frame_files, frame_events, frame_image.
    destruct (Nat.eqb_spec i 0) as [|_]; [contradiction|].
    cbn [st_fig st_dirs st_fs st_log app]. rewrite <- !app_assoc. reflexivity.
Qed.

Lemma render_frames_run (k a : nat) (video : option string) (s : state F) :
  (a + k <= n)%nat -> Inv (st_fig s) -> (a <> 0%nat -> video = Some video_name) ->
  render_frames render update frames_folder video_name fourcc FPS (seq a k) video s
  = (Ok (match k with O => video | S _ => Some video_name end), run (seq a k) s)
  /\ Inv (st_fig (run (seq a k) s)).
Proof.
  revert a video s. induction k as [|k IH]; intros a video s Hk HI Hv.
  - split; [reflexivity | exact HI].
  - cbn [seq].
    destruct (render_frames_step a (seq (S a) k) video s) as [E HI'];
      [lia | assumption | assumption |].
    rewrite E.
    destruct (IH (S a) (Some video_name) (step a s)) as [E' HI''];
      [lia | assumption | reflexivity |].
    rewrite E'. split; [|exact HI''].
    cbn [frames_run fold_left]. destruct k; reflexivity.
Qed.

End FrameLoop.

(** What [frames_run] leaves in the log and in the file system. *)
Section FrameRun.
Context {F : Type}.
Variable render : figure F -> image.
Variable frame_fig : nat -> figure F.
Variables (frames_folder video_name fourcc : string) (FPS : Z).
Hypothesis names_apart : forall i, frame_name frames_folder i <> video_name.

Local Abbreviation run := (frames_run render frame_fig frames_folder video_name fourcc FPS).
Local Abbreviation files := (frame_files render frame_fig frames_folder video_name fourcc FPS).
Local Abbreviation events := (frame_events render frame_fig frames_folder video_name fourcc FPS).
Local Abbreviation img := (frame_image render frame_fig).

Lemma frames_run_log (idx : list nat) (s : state F) :
  st_log (run idx s) = (st_log s ++ concat (map events idx))%list.
Proof.
  revert s. induction idx as [|i idx IH]; intros s.
  - cbn. now rewrite app_nil_r.
  - cbn [frames_run fold_left map concat]. fold (run idx (frame_step render frame_fig frames_folder video_name fourcc FPS i s)).
    rewrite IH. cbn [frame_step st_log]. now rewrite <- app_assoc.
Qed.

Lemma frames_run_dirs (idx : list nat) (s : state F) :
  st_dirs (run idx s) = st_dirs s.
Proof.
  revert s. induction idx as [|i idx IH]; intros s; [reflexivity|].
  cbn [frames_run fold_left]. fold (run idx (frame_step render frame_fig frames_folder video_name fourcc FPS i s)).
  now rewrite IH.
Qed.

Lemma frames_run_fs (idx : list nat) (s : state F) :
  st_fs (run idx s) = fold_left (fun fs i => files i fs) idx (st_fs s).
Proof.
  revert s. induction idx as [|i idx IH]; intros s; [reflexivity|].
  cbn [frames_run fold_left]. fold (run idx (frame_step render frame_fig frames_folder video_name fourcc FPS i s)).
  now rewrite IH.
Qed.

Lemma frame_files_other (i : nat) (fs : gmap string (file F)) (p : string) :
  p <> video_name -> p <> frame_name frames_folder i ->
  files i fs !! p = fs !! p.
Proof.
  intros Hv Hp. unfold frame_files.
  rewrite lookup_alter_ne by congruence.
  destruct (Nat.eqb i 0).
  - rewrite lookup_insert_ne by congruence. now rewrite lookup_insert_ne by congruence.
  - now rewrite lookup_insert_ne by congruence.
Qed.

Lemma frame_files_frame (i : nat) (fs : gmap string (file F)) :
  files i fs !! frame_name frames_folder i = Some (FImage (img i)).
Proof.
  unfold frame_files. pose proof (names_apart i) as Hi.
  rewrite lookup_alter_ne by congruence.
  destruct (Nat.eqb i 0).
  - rewrite lookup_insert_ne by congruence. apply lookup_insert_eq.
  - apply lookup_insert_eq.
Qed.

Lemma frames_fs_other (idx : list nat) (fs : gmap string (file F)) (p : string) :
  p <> video_name -> (forall i, i ∈ idx -> p <> frame_name frames_folder i) ->
  fold_left (fun fs i => files i fs) idx fs !! p = fs !! p.
Proof.
  intros Hv. revert fs. induction idx as [|i idx IH]; intros fs Hp; [reflexivity|].
  cbn [fold_left]. rewrite IH.
  - apply frame_files_other; [assumption|]. apply Hp. left.
  - intros j Hj. apply Hp. now right.
Qed.

Lemma frames_fs_frame (idx : list nat) (fs : gmap string (file F)) (i : nat) :
  i ∈ idx ->
  fold_left (fun fs i => files i fs) idx fs !! frame_name frames_folder i
  = Some (FImage (img i)).
Proof.
  revert fs. induction idx as [|j idx IH]; intros fs Hi; [inversion Hi|].
  cbn [fold_left]. destruct (decide (i ∈ idx)) as [Hin | Hnin]; [now apply IH|].
  assert (i = j) as <- by (inversion Hi; subst; [reflexivity | contradiction]).
  rewrite frames_fs_other.
  - apply frame_files_frame.
  - apply names_apart.
  - intros k Hk E. apply frame_name_inj in E. congruence.
Qed.

Lemma append_frames_fold (g : nat -> image) (idx : list nat) (v : container) :
  fold_left (fun f i => append_frame (F := F) (g i) f) idx (FVideo v)
  = FVideo (Container (vid_fourcc v) (vid_fps v) (vid_size v)
                      (vid_frames v ++ map g idx) (vid_released v)).
Proof.
  revert v. induction idx as [|i idx IH]; intros v.
  - cbn. rewrite app_nil_r. now destruct v.
  - cbn [fold_left map append_frame]. rewrite IH. cbn.
    now rewrite <- app_assoc.
Qed.

Lemma frames_fs_video_tail (idx : list nat) (fs : gmap string (file F)) :
  0%nat ∉ idx ->
  fold_left (fun fs i => files i fs) idx fs !! video_name
  = (fun f => fold_left (fun f i => append_frame (bgr (img i)) f) idx f)
      <$> fs !! video_name.
Proof.
  revert fs. induction idx as [|i idx IH]; intros fs H0.
  - cbn. now destruct (fs !! video_name).
  - cbn [fold_left]. rewrite IH by (intros Hin; apply H0; now right).
    assert (Hi : i <> 0%nat) by (intros ->; apply H0; left).
    unfold frame_files. destruct (Nat.eqb_spec i 0) as [|_]; [contradiction|].
    rewrite lookup_alter_eq, lookup_insert_ne by apply names_apart.
    now destruct (fs !! video_name).
Qed.

Lemma frames_fs_video (k : nat) (fs : gmap string (file F)) :
  fold_left (fun fs i => files i fs) (seq 0 (S k)) fs !! video_name
  = Some (FVideo (video_of_frames render frame_fig fourcc FPS (S k) false)).
Proof.
  cbn [seq fold_left]. rewrite frames_fs_video_tail.
  - unfold frame_files. cbn [Nat.eqb].
    rewrite lookup_alter_eq, lookup_insert_eq. cbn [fmap option_fmap option_map append_frame].
    rewrite append_frames_fold. reflexivity.
  - rewrite elem_of_seq. lia.
Qed.

Lemma frame_events_saved (idx : list nat) :
  saved_paths (concat (map events idx)) = map (frame_name frames_folder) idx.
Proof.
  induction idx as [|i idx IH]; [reflexivity|].
  cbn [map concat]. unfold saved_paths in *. rewrite omap_app, IH.
  unfold frame_events. destruct (Nat.eqb i 0); reflexivity.
Qed.

Lemma frame_events_written (idx : list nat) :
  written_frames (concat (map events idx)) = map (fun i => bgr (img i)) idx.
Proof.
  induction idx as [|i idx IH]; [reflexivity|].
  cbn [map concat]. unfold written_frames in *. rewrite omap_app, IH.
  unfold frame_events. destruct (Nat.eqb i 0); reflexivity.
Qed.

Lemma frame_events_opened (k : nat) :
  opened_videos (concat (map events (seq 0 (S k))))
  = [(video_name, fourcc, FPS, image_size (img 0))].
Proof.
  cbn [seq map concat]. unfold opened_videos. rewrite omap_app.
  unfold frame_events at 1. cbn [Nat.eqb omap app].
  assert (Hrest : forall a n, (0 < a)%nat ->
            omap (fun e : effect F =>
                    match e with
                    | EVideoWriter p c fps size => Some (p, c, fps, size)
                    | _ => None
                    end) (concat (map events (seq a n))) = []).
  { intros a n. revert a. induction n as [|n IHn]; intros a Ha; [reflexivity|].
    cbn [seq map concat]. rewrite omap_app, IHn by lia.
    unfold frame_events. destruct (Nat.eqb_spec a 0); [lia|]. reflexivity. }
  rewrite Hrest by lia. reflexivity.
Qed.

End FrameRun.

(** ** The opencv branch *)

Section OpencvWriter.
Context {F : Type} `{PyFloat F}.
Variable render : figure F -> image.
Variable update : Z -> M (state F) unit.
Variable frame_fig : nat -> figure F.
Variable Inv : figure F -> Prop.
Variables (out_folder : string) (FPS : Z) (n : nat).

Hypothesis update_spec : forall (i : nat) (s : state F),
  (i < n)%nat -> Inv (st_fig s) ->
  update (Z.of_nat i) s
    = (Ok tt, State (frame_fig i) (st_dirs s) (st_fs s) (st_log s))
  /\ Inv (frame_fig i).
Hypothesis render_rgb : forall i, (i < n)%nat -> has_rgb (render (frame_fig i)).

Lemma opencv_writer_run (s : state F) :
  (1 <= n)%nat -> Inv (st_fig s) ->
  opencv_writer render update out_folder FPS n s
  = (Ok (RInt 0), opencv_run render frame_fig out_folder FPS n s).
Proof.
  intros Hn HI. unfold opencv_writer.
  unfold mbind at 1, mkdir at 1.
  unfold mbind at 1.
  destruct (render_frames_run render update frame_fig Inv
              (path_join out_folder "frames") (path_join out_folder "video.mp4")
              "MP4V" FPS n update_spec render_rgb n 0 None
              (State (st_fig s) ({[path_join out_folder "frames"]} ∪ st_dirs s)
                     (st_fs s) (st_log s ++ [EMkdir (path_join out_folder "frames")])))
    as [E _]; [lia | exact HI | congruence |].
  rewrite E. destruct n as [|k]; [lia|]. cbn [local].
  unfold mbind at 1, mret at 1. unfold mbind at 1, video_release at 1.
  reflexivity.
Qed.

(** With no snapshot the loop body never runs and [video] is still
    unbound when it is released. *)
Lemma opencv_writer_empty (s : state F) :
  n = 0%nat ->
  fst (opencv_writer render update out_folder FPS n s)
  = Raise (UnboundLocalError "video").
Proof. intros ->. reflexivity. Qed.

End OpencvWriter.

Lemma omap_step {A B} (f : A -> option B) (x : A) (l : list A) :
  omap f (x :: l) = match f x with Some y => y :: omap f l | None => omap f l end.
Proof. reflexivity. Qed.

(** The observable outcome of [opencv_run]. *)
Section OpencvRun.
Context {F : Type}.
Variable render : figure F -> image.
Variable frame_fig : nat -> figure F.
Variables (out_folder : string) (FPS : Z) (n : nat) (s : state F).

Local Abbreviation frames_folder := (path_join out_folder "frames").
Local Abbreviation video_name := (path_join out_folder "video.mp4").
Local Abbreviation final := (opencv_run render frame_fig out_folder FPS n s).

Lemma opencv_run_log :
  st_log final = (st_log s ++ opencv_log render frame_fig out_folder FPS n)%list.
Proof.
  unfold opencv_run, opencv_log. cbn [st_log].
  rewrite frames_run_log. cbn [st_log]. rewrite <- !app_assoc. reflexivity.
Qed.

Lemma opencv_run_dirs : st_dirs final = {[frames_folder]} ∪ st_dirs s.
Proof. unfold opencv_run. cbn [st_dirs]. now rewrite frames_run_dirs. Qed.

Lemma opencv_run_frame (i : nat) :
  (i < n)%nat ->
  st_fs final !! frame_name frames_folder i = Some (FImage (render (frame_fig i))).
Proof.
  intros Hi. unfold opencv_run. cbn [st_fs].
  rewrite lookup_alter_ne by (intros E; symmetry in E; revert E; apply frame_name_not_video).
  rewrite frames_run_fs. cbn [st_fs].
  apply frames_fs_frame; [apply frame_name_not_video|].
  rewrite elem_of_seq. lia.
Qed.

Lemma opencv_run_video :
  (1 <= n)%nat ->
  st_fs final !! video_name
  = Some (FVideo (video_of_frames render frame_fig "MP4V" FPS n true)).
Proof.
  intros Hn. unfold opencv_run. cbn [st_fs].
  rewrite lookup_alter_eq, frames_run_fs. cbn [st_fs].
  destruct n as [|k]; [lia|].
  rewrite frames_fs_video by apply frame_name_not_video. reflexivity.
Qed.

Lemma opencv_run_other (p : string) :
  p <> video_name -> (forall i, (i < n)%nat -> p <> frame_name frames_folder i) ->
  st_fs final !! p = st_fs s !! p.
Proof.
  intros Hv Hp. unfold opencv_run. cbn [st_fs].
  rewrite lookup_alter_ne by congruence.
  rewrite frames_run_fs. cbn [st_fs].
  apply frames_fs_other; [assumption|].
  intros i Hi. apply Hp. rewrite elem_of_seq in Hi. lia.
Qed.

Lemma opencv_log_saved :
  saved_paths (opencv_log render frame_fig out_folder FPS n)
  = map (frame_name frames_folder) (seq 0 n).
Proof.
  unfold opencv_log, saved_paths. rewrite omap_step, omap_app.
  rewrite omap_step. cbn [omap]. rewrite app_nil_r. apply frame_events_saved.
Qed.

Lemma opencv_log_written :
  written_frames (opencv_log render frame_fig out_folder FPS n)
  = map (fun i => bgr (render (frame_fig i))) (seq 0 n).
Proof.
  unfold opencv_log, written_frames. rewrite omap_step, omap_app.
  rewrite omap_step. cbn [omap]. rewrite app_nil_r. apply frame_events_written.
Qed.

Lemma opencv_log_opened :
  (1 <= n)%nat ->
  opened_videos (opencv_log render frame_fig out_folder FPS n)
  = [(video_name, "MP4V", FPS, image_size (render (frame_fig 0)))].
Proof.
  intros Hn. destruct n as [|k]; [lia|].
  unfold opencv_log, opened_videos. rewrite omap_step, omap_app.
  rewrite omap_step. cbn [omap]. rewrite app_nil_r. apply frame_events_opened.
Qed.

End OpencvRun.

Lemma rectangular_lengths {A} (a : list (list A)) (n0 n1 : nat) :
  rectangular a n0 n1 -> map (@length A) a = replicate n0 n1.
Proof.
  intros [<- Hrows]. induction Hrows as [|row a Hrow Hrows IH]; [reflexivity|].
  cbn. now rewrite Hrow, IH.
Qed.

Lemma rectangular_nonempty {A} (a : list (list A)) (n0 n1 : nat) :
  rectangular a n0 n1 -> (0 < n0)%nat -> (0 < n1)%nat -> concat a <> [].
Proof.
  intros [<- Hrows] H0 H1. destruct a as [|row a]; [cbn in H0; lia|].
  inversion Hrows as [|? ? Hrow _]; subst. destruct row; [cbn in H1; lia|].
  discriminate.
Qed.

Lemma rectangular_same_shape {F} (a b : array2 F) (n0 n1 : nat) :
  rectangular a n0 n1 -> rectangular b n0 n1 -> same_shape a b = true.
Proof.
  intros Ha Hb. apply bool_decide_eq_true.
  now rewrite (rectangular_lengths a n0 n1), (rectangular_lengths b n0 n1).
Qed.

(** A grid of the shape of the data fits. *)
Lemma rectangular_grid_fits {F} (X Y C : array2 F) (n0 n1 : nat) :
  rectangular X n0 n1 -> rectangular Y n0 n1 -> rectangular C n0 n1 ->
  grid_fits X Y C = true.
Proof.
  intros HX HY HC. unfold grid_fits.
  now rewrite (rectangular_same_shape X Y n0 n1), (rectangular_same_shape X C n0 n1).
Qed.

Lemma grid_fits_first {F} (X Y : array2 F) (eta_list : list (array2 F))
    (n0 n1 : nat) :
  eta_list <> [] ->
  rectangular X n0 n1 -> rectangular Y n0 n1 ->
  Forall (fun eta => rectangular eta n0 n1) eta_list ->
  grid_fits X Y (nth 0 eta_list []) = true.
Proof.
  intros Hne HX HY Hshape. destruct eta_list as [|eta0 rest]; [congruence|].
  inversion Hshape; subst. now apply (rectangular_grid_fits X Y eta0 n0 n1).
Qed.

(** ** eta_animation *)

Lemma getitem_lookup {A} (l : list A) (i : nat) (x : A) :
  l !! i = Some x -> getitem l (Z.of_nat i) = Ok x.
Proof.
  intros Hx. pose proof (lookup_lt_Some _ _ _ Hx) as Hi.
  destruct (getitem_in_range l (Z.of_nat i)) as (y & Hy & ->); [lia|].
  rewrite Nat2Z.id in Hy. congruence.
Qed.

Lemma Q_minutes (i : nat) (frame_interval : Q) :
  minutes (Z.of_nat i) frame_interval
  = Ok (inject_Z (Z.of_nat i) * frame_interval / inject_Z 60)%Q.
Proof. unfold minutes. now rewrite Q_fdiv_ok. Qed.

Lemma Q_mid_index {A} (l : list A) :
  mid_index (F := Q) l = Ok (Z.of_nat (length l / 2)).
Proof.
  unfold mid_index. rewrite Q_fdiv_ok by discriminate.
  cbn [rbind to_int Q_PyFloat]. f_equal.
  rewrite Qtrunc_nonneg.
  - change (of_int ?z) with (inject_Z z).
    rewrite <- Zdiv_Qdiv. now rewrite Nat2Z.inj_div.
  - change (of_int ?z) with (inject_Z z).
    apply Qle_shift_div_l; [reflexivity|].
    rewrite Qmult_0_l. change 0%Q with (inject_Z 0). rewrite <- Zle_Qle. lia.
Qed.

(** [fold_left py_max] and [fold_left py_min] compute a maximum and a
    minimum of the entries. *)
Lemma Q_fold_max (l : list Q) (x : Q) :
  let m := fold_left py_max l x in
  (x <= m)%Q /\ Forall (fun v => (v <= m)%Q) l /\ (m = x \/ m ∈ l).
Proof.
  revert x. induction l as [|y l IH]; intros x; cbn [fold_left].
  - split; [apply Qle_refl|]. split; [constructor | now left].
  - destruct (IH (py_max x y)) as (H1 & H2 & H3).
    destruct (Q_py_max_spec x y) as (Hx & Hy & Hxy).
    split; [eapply Qle_trans; eassumption|]. split.
    + constructor; [eapply Qle_trans; eassumption | assumption].
    + destruct H3 as [-> | Hin]; [|right; now right].
      destruct Hxy as [-> | ->]; [now left | right; left].
Qed.

Lemma Q_fold_min (l : list Q) (x : Q) :
  let m := fold_left py_min l x in
  (m <= x)%Q /\ Forall (fun v => (m <= v)%Q) l /\ (m = x \/ m ∈ l).
Proof.
  revert x. induction l as [|y l IH]; intros x; cbn [fold_left].
  - split; [apply Qle_refl|]. split; [constructor | now left].
  - destruct (IH (py_min x y)) as (H1 & H2 & H3).
    destruct (Q_py_min_spec x y) as (Hx & Hy & Hxy).
    split; [eapply Qle_trans; eassumption|]. split.
    + constructor; [eapply Qle_trans; eassumption | assumption].
    + destruct H3 as [-> | Hin]; [|right; now right].
      destruct Hxy as [-> | ->]; [now left | right; left].
Qed.

Lemma Q_amax (l : list Q) :
  l <> [] ->
  exists m, amax l = Ok m /\ Forall (fun v => (v <= m)%Q) l /\ m ∈ l.
Proof.
  destruct l as [|x l]; [congruence|]. intros _.
  destruct (Q_fold_max l x) as (H1 & H2 & H3).
  exists (fold_left py_max l x). split; [reflexivity|]. split.
  - constructor; assumption.
  - destruct H3 as [-> | Hin]; [left | now right].
Qed.

Lemma Q_amin (l : list Q) :
  l <> [] ->
  exists m, amin l = Ok m /\ Forall (fun v => (m <= v)%Q) l /\ m ∈ l.
Proof.
  destruct l as [|x l]; [congruence|]. intros _.
  destruct (Q_fold_min l x) as (H1 & H2 & H3).
  exists (fold_left py_min l x). split; [reflexivity|]. split.
  - constructor; assumption.
  - destruct H3 as [-> | Hin]; [left | now right].
Qed.

(** The magnitude of the mid-sequence snapshot: the largest absolute
    value among the entries of snapshot [len / 2]. *)
Lemma Q_mid_magnitude (eta_list : list (array2 Q)) (mid : array2 Q) :
  eta_list !! (length eta_list / 2)%nat = Some mid -> concat mid <> [] ->
  exists m,
    mid_magnitude eta_list = Ok m /\
    Forall (fun v => (Qabs v <= m)%Q) (concat mid) /\
    (exists v, v ∈ concat mid /\ m = Qabs v).
Proof.
  intros Hmid Hne. unfold mid_magnitude.
  rewrite Q_mid_index. cbn [rbind]. rewrite (getitem_lookup _ _ _ Hmid). cbn [rbind].
  unfold abs_max.
  destruct (Q_amax (map fabs (concat mid))) as (m & Em & Hle & Hin).
  { destruct (concat mid); [congruence | discriminate]. }
  exists m. split; [exact Em|]. split.
  - rewrite Forall_fmap in Hle. exact Hle.
  - apply list_elem_of_fmap in Hin. destruct Hin as (v & -> & Hv). eauto.
Qed.

Section EtaAnimation.
Variable render : figure Q -> image.
Variables (X Y : array2 Q) (eta_list : list (array2 Q)) (frame_interval : Q).
Variables (out_folder : string) (FPS : Z) (m : Q).
Hypothesis mid_ok : mid_magnitude eta_list = Ok m.
Hypothesis grid_ok : grid_fits X Y (nth 0 eta_list []) = true.

Local Abbreviation vmin := ((-7 # 10) * m)%Q.
Local Abbreviation fig := (eta_frame X Y eta_list frame_interval vmin m).
Local Abbreviation drawn := (fun f : figure Q =>
  exists t C, f = Figure t "x [m]" "y [m]" ""
                         (Some (PColorMesh X Y C vmin m)) true None None None).
Local Abbreviation after_setup := (fun s : state Q =>
  State (Figure None "x [m]" "y [m]" ""
                (Some (PColorMesh X Y (concat (nth 0 eta_list [])) vmin m))
                true None None None)
        (st_dirs s) (st_fs s) (st_log s)).

Lemma update_eta_spec (i : nat) (s : state Q) :
  (i < length eta_list)%nat -> drawn (st_fig s) ->
  update_eta eta_list frame_interval (Z.of_nat i) s
    = (Ok tt, State (fig i) (st_dirs s) (st_fs s) (st_log s))
  /\ drawn (fig i).
Proof.
  intros Hi (t & C & Ef). split; [|unfold eta_frame; eauto].
  destruct (lookup_lt_is_Some_2 eta_list i Hi) as [eta Heta].
  unfold update_eta, mbind, lift. rewrite Q_minutes, (getitem_lookup _ _ _ Heta).
  unfold set_title, set_array, modify_fig. cbn [st_fig st_dirs st_fs st_log].
  rewrite Ef. cbn. unfold eta_frame. rewrite (nth_lookup_Some _ _ _ _ Heta).
  reflexivity.
Qed.

Lemma eta_animation_setup (writer : string) (s : state Q) :
  eta_list <> [] ->
  eta_animation render X Y eta_list frame_interval out_folder writer FPS s
  = (if String.eqb writer "opencv"
     then opencv_writer render (update_eta eta_list frame_interval) out_folder FPS
                        (length eta_list)
     else ffmpeg_writer) (after_setup s).
Proof.
  intros Hne.
  destruct (lookup_lt_is_Some_2 eta_list 0) as [eta0 H0].
  { destruct eta_list; [congruence | cbn; lia]. }
  pose proof (getitem_lookup _ _ _ H0) as E0. change (Z.of_nat 0) with 0 in E0.
  pose proof grid_ok as Hfit. rewrite (nth_lookup_Some _ _ _ _ H0) in Hfit.
  unfold eta_animation, mbind, lift, new_figure, set_labels, pcolormesh, colorbar.
  rewrite E0, mid_ok. cbn [rbind]. rewrite Hfit.
  unfold set_artist, modify_fig. rewrite (nth_lookup_Some _ _ _ _ H0).
  destruct (String.eqb writer "opencv"); reflexivity.
Qed.

Lemma eta_animation_opencv (s : state Q) :
  eta_list <> [] -> (forall f, has_rgb (render f)) ->
  eta_animation render X Y eta_list frame_interval out_folder "opencv" FPS s
  = (Ok (RInt 0),
     opencv_run render fig out_folder FPS (length eta_list) (after_setup s)).
Proof.
  intros Hne Hrgb. rewrite eta_animation_setup by assumption.
  cbn [String.eqb Ascii.eqb Bool.eqb].
  apply (opencv_writer_run render _ fig drawn).
  - intros i s' Hi HI. now apply update_eta_spec.
  - intros i _. apply Hrgb.
  - destruct eta_list; [congruence | cbn; lia].
  - cbn [st_fig]. eauto.
Qed.

End EtaAnimation.

Lemma frame_events_images {F} (render : figure F -> image)
    (frame_fig : nat -> figure F) (frames_folder video_name fourcc : string)
    (FPS : Z) (idx : list nat) :
  saved_images (concat (map (frame_events render frame_fig frames_folder
                                          video_name fourcc FPS) idx))
  = map (fun i => render (frame_fig i)) idx.
Proof.
  induction idx as [|i idx IH]; [reflexivity|].
  cbn [map concat]. unfold saved_images in *. rewrite omap_app, IH.
  unfold frame_events. destruct (Nat.eqb i 0); reflexivity.
Qed.

Lemma frame_events_not_opened {F} (render : figure F -> image)
    (frame_fig : nat -> figure F) (frames_folder video_name fourcc : string)
    (FPS : Z) (a k : nat) :
  (0 < a)%nat ->
  opened_videos (concat (map (frame_events render frame_fig frames_folder
                                           video_name fourcc FPS) (seq a k)))
  = [].
Proof.
  revert a. induction k as [|k IH]; intros a Ha; [reflexivity|].
  cbn [seq map concat]. unfold opened_videos in *. rewrite omap_app, IH by lia.
  unfold frame_events. destruct (Nat.eqb_spec a 0); [lia|]. reflexivity.
Qed.

Lemma opened_videos_app {F} (l r : list (effect F)) :
  opened_videos (l ++ r) = (opened_videos l ++ opened_videos r)%list.
Proof. apply omap_app. Qed.

Lemma opened_videos_cons {F} (e : effect F) (l : list (effect F)) :
  opened_videos (e :: l)
  = match e with
    | EVideoWriter p c fps size => (p, c, fps, size) :: opened_videos l
    | _ => opened_videos l
    end.
Proof. destruct e; reflexivity. Qed.

(** C7.  When the update function succeeds at every index and the
    rasteriser yields at least three channels, the opencv branch opens the
    container once: in iteration 0, after the first frame is saved and
    before any frame is appended, with the size of that first frame; no
    later call opens one.  The frames appended are, in order, the saved
    frames with their channels reordered to blue, green, red. *)
Theorem opencv_writer_container {F : Type} `{PyFloat F}
    (render : figure F -> image) (update : Z -> M (state F) unit)
    (frame_fig : nat -> figure F) (Inv : figure F -> Prop)
    (out_folder : string) (FPS : Z) (n : nat) (s : state F) :
  let frames_folder := path_join out_folder "frames" in
  let video_name := path_join out_folder "video.mp4" in
  (forall (i : nat) (s0 : state F),
     (i < n)%nat -> Inv (st_fig s0) ->
     update (Z.of_nat i) s0
       = (Ok tt, State (frame_fig i) (st_dirs s0) (st_fs s0) (st_log s0))
     /\ Inv (frame_fig i)) ->
  (forall i, (i < n)%nat -> has_rgb (render (frame_fig i))) ->
  (1 <= n)%nat -> Inv (st_fig s) ->
  exists (s' : state F) (log rest : list (effect F)),
    opencv_writer render update out_folder FPS n s = (Ok (RInt 0), s') /\
    st_log s' = (st_log s ++ log)%list /\
    log = EMkdir frames_folder
          :: ESavefig (frame_name frames_folder 0%nat) (render (frame_fig 0%nat))
          :: EVideoWriter video_name "MP4V" FPS (image_size (render (frame_fig 0%nat)))
          :: rest /\
    opened_videos rest = [] /\
    opened_videos log
      = [(video_name, "MP4V", FPS, image_size (render (frame_fig 0%nat)))] /\
    saved_images log = map (fun i => render (frame_fig i)) (seq 0%nat n) /\
    written_frames log = map bgr (saved_images log) /\
    (forall (r g b : Z) (alpha : list Z),
       bgr_pixel (r :: g :: b :: alpha) = [b; g; r]).
Proof.
  intros frames_folder video_name Hupd Hrgb Hn HI.
  exists (opencv_run render frame_fig out_folder FPS n s),
         (opencv_log render frame_fig out_folder FPS n).
  destruct n as [|k] eqn:En; [lia|]. rewrite <- En in *.
  exists (EVideoWrite video_name (bgr (render (frame_fig 0%nat)))
          :: concat (map (frame_events render frame_fig frames_folder video_name
                                       "MP4V" FPS) (seq 1%nat k))
             ++ [EVideoRelease video_name])%list.
  split; [now apply (opencv_writer_run render update frame_fig Inv)|].
  split; [apply opencv_run_log|].
  split; [unfold opencv_log; rewrite En; reflexivity|].
  split.
  { rewrite opened_videos_cons, opened_videos_app.
    rewrite frame_events_not_opened by lia. reflexivity. }
  split; [apply opencv_log_opened; lia|].
  assert (Himg : saved_images (opencv_log render frame_fig out_folder FPS n)
                 = map (fun i => render (frame_fig i)) (seq 0%nat n)).
  { unfold opencv_log, saved_images. rewrite omap_step, omap_app.
    rewrite omap_step. cbn [omap]. rewrite app_nil_r. apply frame_events_images. }
  split; [exact Himg|].
  split; [|reflexivity].
  rewrite Himg, opencv_log_written, map_map. reflexivity.
Qed.

Lemma opencv_writer_container_witness :
  exists s' : state Q,
    opencv_writer (fun _ => [[[10; 20; 30; 255]]])
                  (update_eta [[[1; 2]; [3; 4]]; [[5; 6]; [7; 8]]]%Q 60%Q)
                  "out" 10 2
                  (State (Figure None "x [m]" "y [m]" ""
                                 (Some (PColorMesh [[0%Q]] [[0%Q]] []
                                                   ((-7 # 10) * 8)%Q 8%Q))
                                 true None None None) ∅ ∅ [])
    = (Ok (RInt 0), s') /\
    opened_videos (st_log s') = [("out/video.mp4", "MP4V", 10, (1%nat, 1%nat))] /\
    written_frames (st_log s') = [[[[30; 20; 10]]]; [[[30; 20; 10]]]].
Proof.
  destruct (opencv_writer_container
              (fun _ => [[[10; 20; 30; 255]]])
              (update_eta [[[1; 2]; [3; 4]]; [[5; 6]; [7; 8]]]%Q 60%Q)
              (eta_frame [[0%Q]] [[0%Q]] [[[1; 2]; [3; 4]]; [[5; 6]; [7; 8]]]%Q
                         60%Q ((-7 # 10) * 8)%Q 8%Q)
              (fun f => exists t C,
                 f = Figure t "x [m]" "y [m]" ""
                            (Some (PColorMesh [[0%Q]] [[0%Q]] C
                                              ((-7 # 10) * 8)%Q 8%Q))
                            true None None None)
              "out" 10 2%nat
              (State (Figure None "x [m]" "y [m]" ""
                             (Some (PColorMesh [[0%Q]] [[0%Q]] []
                                               ((-7 # 10) * 8)%Q 8%Q))
                             true None None None) ∅ ∅ []))
    as (s' & log & rest & Hrun & Hlog & _ & _ & Hopen & Himg & Hwr & _).
  - intros i s0 Hi HI. now apply update_eta_spec.
  - intros i _. repeat constructor.
  - lia.
  - exists None, []. reflexivity.
  - exists s'. split; [exact Hrun|].
    rewrite Hlog. cbn [app st_log]. split; [exact Hopen|].
    rewrite Hwr, Himg. reflexivity.
Defined.




(** C2, amended.  On an empty snapshot list [eta_animation] raises
    IndexError while it builds the first plot, whatever the writer; by
    then it has created no directory and no file and has called neither
    savefig nor the video writer.  The writer branch has no guard of its
    own either: entered with no snapshot it never opens a video, and
    raises UnboundLocalError when it comes to release one. *)
Theorem eta_animation_empty_raises {F : Type} `{PyFloat F}
    (render : figure F -> image) (X Y : array2 F) (frame_interval : F)
    (out_folder writer : string) (FPS : Z) (s : state F) :
  (exists s' : state F,
     eta_animation render X Y [] frame_interval out_folder writer FPS s
       = (Raise IndexError, s') /\
     st_fs s' = st_fs s /\ st_dirs s' = st_dirs s /\ st_log s' = st_log s) /\
  (forall update : Z -> M (state F) unit,
   exists s' : state F,
     opencv_writer render update out_folder FPS 0 s
       = (Raise (UnboundLocalError "video"), s') /\
     st_fs s' = st_fs s /\ opened_videos (st_log s') = opened_videos (st_log s)).
Proof.
  split.
  - eexists. split; [reflexivity|]. repeat split.
  - intros update. eexists. split; [reflexivity|]. split; [reflexivity|].
    cbn [st_log]. rewrite opened_videos_app. cbn. now rewrite app_nil_r.
Qed.

(** C2 as worded fails: the call is no guarded no-op, it raises. *)
Lemma eta_animation_empty_crashes :
  fst (eta_animation (F := Q) (fun _ => []) [[0%Q]] [[0%Q]] [] 1%Q "out" "opencv" 10
                     initial_state)
  = Raise IndexError.
Proof. reflexivity. Qed.

(** The per-frame update never touches the colour limits. *)
Lemma update_eta_keeps_clim {F : Type} `{PyFloat F}
    (eta_list : list (array2 F)) (frame_interval : F) (num : Z) (s : state F) :
  artist_clim (st_fig (snd (update_eta eta_list frame_interval num s)))
  = artist_clim (st_fig s).
Proof.
  unfold update_eta, mbind, lift, set_title, set_array, modify_fig.
  destruct (minutes num frame_interval); [|reflexivity].
  cbn [st_fig st_dirs st_fs st_log].
  destruct (getitem eta_list num); cbn [snd st_fig]; [|reflexivity].
  unfold artist_clim. cbn [fig_artist].
  destruct (fig_artist (st_fig s)) as [[]|]; reflexivity.
Qed.



(** ** velocity_animation *)

Lemma slice2_zero {A} (a : list (list A)) : slice2 0 a = Raise ValueError.
Proof. reflexivity. Qed.

(** A zero stride stops [velocity_animation] at the first slice, before
    any directory, frame or video exists. *)
Lemma velocity_animation_zero_stride {F : Type} `{PyFloat F}
    (render : figure F -> image) (X Y : array2 F) (u_list v_list : list (array2 F))
    (frame_interval : F) (out_folder writer : string) (FPS : Z) (arrow_scale : F)
    (s : state F) :
  quiver_stride X = Ok 0 ->
  exists s' : state F,
    velocity_animation render X Y u_list v_list frame_interval out_folder writer
                       FPS arrow_scale s
      = (Raise ValueError, s') /\
    st_fs s' = st_fs s /\ st_dirs s' = st_dirs s /\ st_log s' = st_log s.
Proof.
  intros Hq. eexists. split.
  - unfold velocity_animation, mbind, lift, new_figure, set_title, set_labels,
      modify_fig. rewrite Hq, slice2_zero. cbn [rbind]. reflexivity.
  - repeat split.
Qed.

(** On binary64, [int(0.02 * m)] is 0 for every [m] from 0 to 49. *)
Lemma f64_stride_small (m : Z) :
  0 <= m < 50 ->
  to_int (fmul (literal 2 100) (of_int m : float)) = Ok 0.
Proof.
  intros Hm. rewrite <- (Z2Nat.id m) by lia.
  assert (Hk : (Z.to_nat m < 50)%nat) by lia.
  generalize dependent (Z.to_nat m). clear Hm. intros k Hk.
  do 50 (destruct k as [|k]; [vm_compute; reflexivity|]). lia.
Qed.

(** In exact arithmetic the stride is the smaller dimension divided by 50,
    rounded down. *)
Lemma Q_quiver_stride (X : array2 Q) :
  quiver_stride X = Ok (Z.min (shape0 X) (shape1 X) / 50).
Proof.
  unfold quiver_stride. cbn [to_int fmul literal of_int Q_PyFloat]. f_equal.
  set (k := Z.min (shape0 X) (shape1 X)).
  assert (Hk : 0 <= k) by (unfold k, shape0, shape1; lia).
  rewrite Qtrunc_nonneg.
  - rewrite (Zdiv_Qdiv k 50). apply Qfloor_comp. field.
  - apply Qmult_le_0_compat; [discriminate|].
    change 0%Q with (inject_Z 0). now rewrite <- Zle_Qle.
Qed.

Lemma Q_quiver_stride_zero_iff (X : array2 Q) :
  quiver_stride X = Ok 0 <-> Z.min (shape0 X) (shape1 X) < 50.
Proof.
  rewrite Q_quiver_stride.
  assert (Hk : 0 <= Z.min (shape0 X) (shape1 X)) by (unfold shape0, shape1; lia).
  split.
  - intros E. injection E as E. apply Z.div_small_iff in E; lia.
  - intros Hlt. f_equal. apply Z.div_small. lia.
Qed.

(** C9, on binary64.  When the smaller dimension of [X] is below 50 the
    stride is 0 and [velocity_animation] raises ValueError on its first
    slice, whatever the writer: nothing has been rendered or written. *)
Theorem velocity_animation_small_grid
    (render : figure float -> image) (X Y : array2 float)
    (u_list v_list : list (array2 float)) (frame_interval : float)
    (out_folder writer : string) (FPS : Z) (arrow_scale : float)
    (s : state float) :
  Z.min (shape0 X) (shape1 X) < 50 ->
  quiver_stride X = Ok 0 /\
  exists s' : state float,
    velocity_animation render X Y u_list v_list frame_interval out_folder writer
                       FPS arrow_scale s
      = (Raise ValueError, s') /\
    st_fs s' = st_fs s /\ st_dirs s' = st_dirs s /\ st_log s' = st_log s.
Proof.
  intros Hsmall.
  assert (Hq : quiver_stride X = Ok 0).
  { unfold quiver_stride. apply f64_stride_small. unfold shape0, shape1 in *. lia. }
  split; [exact Hq|]. now apply velocity_animation_zero_stride.
Qed.

Lemma velocity_animation_small_grid_witness :
  let X : array2 float := replicate 49 (replicate 60 0%float) in
  quiver_stride X = Ok 0 /\
  exists s' : state float,
    velocity_animation (fun _ => []) X X [X] [X] 1%float "out" "opencv" 10
                       2%float initial_state
      = (Raise ValueError, s') /\
    st_fs s' = ∅ /\ st_dirs s' = ∅ /\ st_log s' = [].
Proof.
  intros X.
  apply (velocity_animation_small_grid (fun _ => []) X X [X] [X] 1%float "out"
           "opencv" 10 2%float initial_state).
  vm_compute. reflexivity.
Defined.

(** The same in exact arithmetic, with the converse: from 50 on the
    stride is at least 1. *)
Lemma Q_small_grid_stride
    (render : figure Q -> image) (X Y : array2 Q)
    (u_list v_list : list (array2 Q)) (frame_interval : Q)
    (out_folder writer : string) (FPS : Z) (arrow_scale : Q) (s : state Q) :
  (Z.min (shape0 X) (shape1 X) < 50 ->
   fst (velocity_animation render X Y u_list v_list frame_interval out_folder
                           writer FPS arrow_scale s) = Raise ValueError) /\
  (50 <= Z.min (shape0 X) (shape1 X) ->
   exists q_int, quiver_stride X = Ok q_int /\ 1 <= q_int).
Proof.
  split.
  - intros Hsmall. apply Q_quiver_stride_zero_iff in Hsmall.
    destruct (velocity_animation_zero_stride render X Y u_list v_list
                frame_interval out_folder writer FPS arrow_scale s Hsmall)
      as (s' & -> & _). reflexivity.
  - intros Hbig. eexists. split; [apply Q_quiver_stride|].
    apply Z.div_le_lower_bound; lia.
Qed.

(** ** eta_animation3D *)

Lemma Q_div_all (a : array2 Q) :
  div_all a (of_int 1000)
  = Ok (map (map (fun x => x / inject_Z 1000)%Q) a).
Proof.
  unfold div_all. apply mapM_map, Forall_forall. intros row _.
  apply mapM_map, Forall_forall. intros x _. now rewrite Q_fdiv_ok.
Qed.

Lemma Q_km_range (a : array2 Q) :
  concat a <> [] -> exists lo hi, km_range a = Ok (lo, hi).
Proof.
  intros Hne. unfold km_range.
  destruct (Q_amin _ Hne) as (lo & -> & _). destruct (Q_amax _ Hne) as (hi & -> & _).
  cbn [rbind]. rewrite !Q_fdiv_ok by discriminate. cbn [rbind]. eauto.
Qed.

Lemma np_array_uniform {F} `{PyFloat F} (l : list (array2 F)) (n0 n1 : nat) :
  Forall (fun eta => rectangular eta n0 n1) l -> np_array l = Ok l.
Proof.
  intros Hl. unfold np_array. destruct l as [|a l']; [reflexivity|].
  assert (E : forallb (same_shape a) (a :: l') = true); [|now rewrite E].
  apply forallb_forall. intros b Hb. unfold same_shape. apply bool_decide_eq_true.
  rewrite Forall_forall in Hl.
  rewrite (rectangular_lengths a n0 n1), (rectangular_lengths b n0 n1); auto.
  - apply Hl. now apply list_elem_of_In.
  - apply Hl. left.
Qed.

Section EtaAnimation3D.
Variable render : figure Q -> image.
Variables (X Y : array2 Q) (eta_list : list (array2 Q)) (frame_interval : Q).
Variables (out_folder : string) (FPS : Z) (vmin vmax : Q) (xl yl : Q * Q).
Hypothesis xl_ok : km_range X = Ok xl.
Hypothesis yl_ok : km_range Y = Ok yl.

Local Abbreviation fig := (surf_frame X Y eta_list frame_interval vmin vmax xl yl).

Lemma update_surf_spec (i : nat) (s : state Q) :
  (i < length eta_list)%nat ->
  update_surf X Y eta_list frame_interval vmin vmax (Z.of_nat i) s
  = (Ok tt, State (fig i) (st_dirs s) (st_fs s) (st_log s)).
Proof.
  intros Hi. destruct (lookup_lt_is_Some_2 eta_list i Hi) as [eta Heta].
  unfold update_surf, mbind, lift, new_figure, set_artist, set_title, set_labels,
    set_lims, modify_fig.
  rewrite !Q_div_all, (getitem_lookup _ _ _ Heta), Q_minutes, xl_ok, yl_ok.
  cbn. unfold surf_frame. rewrite (nth_lookup_Some _ _ _ _ Heta). reflexivity.
Qed.

End EtaAnimation3D.

Lemma eta_animation3D_opencv (render : figure Q -> image) (X Y : array2 Q)
    (eta_list : list (array2 Q)) (frame_interval : Q) (out_folder : string)
    (FPS : Z) (vmin vmax : Q) (xl yl : Q * Q) (n0 n1 : nat) (s : state Q) :
  eta_list <> [] ->
  Forall (fun eta => rectangular eta n0 n1) eta_list ->
  amin (concat (concat eta_list)) = Ok vmin ->
  amax (concat (concat eta_list)) = Ok vmax ->
  km_range X = Ok xl -> km_range Y = Ok yl ->
  (forall f, has_rgb (render f)) ->
  eta_animation3D render X Y eta_list frame_interval out_folder "opencv" FPS s
  = (Ok (RInt 0),
     opencv_run render
       (surf_frame X Y eta_list frame_interval vmin vmax xl yl)
       out_folder FPS (length eta_list)
       (State (Figure None "" "" "" (Some (Surface X Y (nth 0 eta_list []) "Blues" None))
                      false None None None)
              (st_dirs s) (st_fs s) (st_log s))).
Proof.
  intros Hne Hshape Hmin Hmax Hxl Hyl Hrgb.
  destruct (lookup_lt_is_Some_2 eta_list 0) as [eta0 H0].
  { destruct eta_list; [congruence | cbn; lia]. }
  pose proof (getitem_lookup _ _ _ H0) as E0. change (Z.of_nat 0) with 0 in E0.
  unfold eta_animation3D, mbind at 1, new_figure at 1, modify_fig at 1.
  unfold mbind at 1, lift at 1. rewrite E0.
  unfold mbind at 1, set_artist at 1, modify_fig at 1.
  unfold mbind at 1, lift at 1. rewrite (np_array_uniform _ n0 n1 Hshape).
  unfold mbind at 1, lift at 1. rewrite Hmin.
  unfold mbind at 1, lift at 1. rewrite Hmax.
  cbn [String.eqb Ascii.eqb Bool.eqb st_fig st_dirs st_fs st_log fig_title
       fig_xlabel fig_ylabel fig_zlabel fig_colorbar fig_xlim fig_ylim fig_zlim
       empty_figure].
  rewrite (nth_lookup_Some _ _ _ _ H0).
  apply (opencv_writer_run render _
           (surf_frame X Y eta_list frame_interval vmin vmax xl yl)
           (fun _ => True)).
  - intros i s' Hi _. split; [|exact I]. now apply update_surf_spec.
  - intros i _. apply Hrgb.
  - destruct eta_list; [congruence | cbn; lia].
  - exact I.
Qed.

(** C10.  On a non-empty list of snapshots of one non-empty shape, with
    grids of that shape, [eta_animation3D] fixes [vmin] and [vmax] before
    the loop as the least and the greatest entry over all snapshots, and
    every saved frame is rasterised from a surface with exactly these
    limits. *)
Theorem eta_animation3D_global_color_scale
    (render : figure Q -> image) (X Y : array2 Q) (eta_list : list (array2 Q))
    (frame_interval : Q) (out_folder : string) (FPS : Z) (n0 n1 : nat)
    (s : state Q) :
  let frames_folder := path_join out_folder "frames" in
  let entries := concat (concat eta_list) in
  eta_list <> [] -> (0 < n0)%nat -> (0 < n1)%nat ->
  Forall (fun eta => rectangular eta n0 n1) eta_list ->
  rectangular X n0 n1 -> rectangular Y n0 n1 ->
  (forall f, has_rgb (render f)) ->
  exists (vmin vmax : Q) (s' : state Q),
    amin entries = Ok vmin /\ amax entries = Ok vmax /\
    Forall (fun v => (vmin <= v <= vmax)%Q) entries /\
    vmin ∈ entries /\ vmax ∈ entries /\
    eta_animation3D render X Y eta_list frame_interval out_folder "opencv" FPS s
      = (Ok (RInt 0), s') /\
    (forall (i : nat) (eta : array2 Q),
       eta_list !! i = Some eta ->
       exists f : figure Q,
         st_fs s' !! frame_name frames_folder i = Some (FImage (render f)) /\
         fig_artist f
           = Some (Surface (map (map (fun x => x / inject_Z 1000)%Q) X)
                           (map (map (fun y => y / inject_Z 1000)%Q) Y)
                           eta "RdBu_r" (Some (vmin, vmax))) /\
         artist_clim f = Some (vmin, vmax)).
Proof.
  intros frames_folder entries Hne Hn0 Hn1 Hshape HX HY Hrgb.
  assert (Hent : entries <> []).
  { subst entries. destruct eta_list as [|eta0 rest]; [congruence|].
    inversion Hshape as [|? ? Hr0 _]; subst.
    pose proof (rectangular_nonempty _ _ _ Hr0 Hn0 Hn1) as Hc.
    cbn [concat]. rewrite concat_app.
    destruct (concat eta0); [congruence | discriminate]. }
  destruct (Q_amin entries Hent) as (vmin & Emin & Hlo & Hminin).
  destruct (Q_amax entries Hent) as (vmax & Emax & Hhi & Hmaxin).
  destruct (Q_km_range X (rectangular_nonempty _ _ _ HX Hn0 Hn1)) as (xlo & xhi & Exl).
  destruct (Q_km_range Y (rectangular_nonempty _ _ _ HY Hn0 Hn1)) as (ylo & yhi & Eyl).
  exists vmin, vmax. eexists.
  split; [exact Emin|]. split; [exact Emax|].
  split.
  { rewrite Forall_forall in Hlo, Hhi. apply Forall_forall. intros v Hv. auto. }
  split; [exact Hminin|]. split; [exact Hmaxin|].
  split.
  { apply (eta_animation3D_opencv render X Y eta_list frame_interval out_folder FPS
             vmin vmax (xlo, xhi) (ylo, yhi) n0 n1 s); assumption. }
  intros i eta Heta.
  exists (surf_frame X Y eta_list frame_interval vmin vmax (xlo, xhi) (ylo, yhi) i).
  split.
  - apply opencv_run_frame. eapply lookup_lt_Some; eassumption.
  - unfold surf_frame, artist_clim. cbn [fig_artist].
    now rewrite (nth_lookup_Some _ _ _ _ Heta).
Qed.

Lemma eta_animation3D_global_color_scale_witness :
  exists (vmin vmax : Q) (s' : state Q),
    (vmin == -9)%Q /\ (vmax == 90)%Q /\
    eta_animation3D (fun _ => [[[10; 20; 30; 255]]])
                    [[0; 1]; [0; 1]]%Q [[0; 0]; [1; 1]]%Q
                    [[[1; 2]; [3; 4]]; [[5; -9]; [7; 8]]; [[90; 0]; [0; 0]]]%Q
                    60%Q "out" "opencv" 10 initial_state
    = (Ok (RInt 0), s').
Proof.
  destruct (eta_animation3D_global_color_scale
              (fun _ => [[[10; 20; 30; 255]]])
              [[0; 1]; [0; 1]]%Q [[0; 0]; [1; 1]]%Q
              [[[1; 2]; [3; 4]]; [[5; -9]; [7; 8]]; [[90; 0]; [0; 0]]]%Q
              60%Q "out" 10 2%nat 2%nat initial_state)
    as (vmin & vmax & s' & Emin & Emax & _ & _ & _ & Hrun & _).
  - discriminate.
  - lia.
  - lia.
  - repeat constructor.
  - repeat constructor.
  - repeat constructor.
  - intros f. repeat constructor.
  - exists vmin, vmax, s'.
    vm_compute in Emin. injection Emin as <-.
    vm_compute in Emax. injection Emax as <-.
    split; [reflexivity|]. split; [reflexivity | exact Hrun].
Defined.

(** ** The other writer branch *)

Lemma writer_not_opencv (writer : string) :
  writer <> "opencv" -> String.eqb writer "opencv" = false.
Proof. intros Hw. now apply String.eqb_neq. Qed.

Lemma eta_animation_ffmpeg {F : Type} `{PyFloat F}
    (render : figure F -> image) (X Y : array2 F) (eta_list : list (array2 F))
    (frame_interval : F) (out_folder writer : string) (FPS : Z) (s : state F) :
  writer <> "opencv" ->
  exists (e : exn) (s' : state F),
    eta_animation render X Y eta_list frame_interval out_folder writer FPS s
      = (Raise e, s') /\
    st_fs s' = st_fs s /\ st_dirs s' = st_dirs s /\ st_log s' = st_log s /\
    (eta_setup_ok X Y eta_list -> e = NameError "filename").
Proof.
  intros Hw. unfold eta_animation, eta_setup_ok, is_ok, mbind, lift, new_figure,
    set_labels, pcolormesh, colorbar.
  rewrite (writer_not_opencv _ Hw).
  destruct (getitem eta_list 0) as [eta0|e0];
    [|do 2 eexists; repeat split; intros [(? & ? & _) _]; congruence].
  destruct (mid_magnitude eta_list) as [m|e1];
    [|do 2 eexists; repeat split; intros [_ [? ?]]; congruence].
  cbn [rbind]. destruct (grid_fits X Y eta0) eqn:Efit.
  - do 2 eexists. repeat split.
  - do 2 eexists. repeat split.
    intros [(eta0' & E0 & Hfit) _]. injection E0 as <-. congruence.
Qed.

Lemma velocity_animation_ffmpeg {F : Type} `{PyFloat F}
    (render : figure F -> image) (X Y : array2 F) (u_list v_list : list (array2 F))
    (frame_interval : F) (out_folder writer : string) (FPS : Z) (arrow_scale : F)
    (s : state F) :
  writer <> "opencv" ->
  exists (e : exn) (s' : state F),
    velocity_animation render X Y u_list v_list frame_interval out_folder writer
                       FPS arrow_scale s
      = (Raise e, s') /\
    st_fs s' = st_fs s /\ st_dirs s' = st_dirs s /\ st_log s' = st_log s /\
    (velocity_setup_ok X Y u_list v_list -> e = NameError "filename").
Proof.
  intros Hw. unfold velocity_animation, velocity_setup_ok, is_ok, mbind, lift,
    new_figure, set_title, set_labels, set_artist, modify_fig.
  rewrite (writer_not_opencv _ Hw).
  destruct (quiver_stride X) as [q|e0];
    [|do 2 eexists; repeat split; intros (? & ? & ? & ? & ? & ? & _); congruence].
  destruct (let? a := slice2 q X in div_all a (of_int 1000)) as [Xs|e1] eqn:E1;
    [|do 2 eexists; repeat split;
      intros (q' & ? & ? & ? & ? & Eq & E & _); injection Eq as <-; congruence].
  destruct (let? a := slice2 q Y in div_all a (of_int 1000)) as [Ys|e2] eqn:E2;
    [|do 2 eexists; repeat split;
      intros (q' & ? & ? & ? & ? & Eq & _ & E & _); injection Eq as <-; congruence].
  destruct (let? u := getitem u_list 0 in slice2 q u) as [us|e3] eqn:E3;
    [|do 2 eexists; repeat split;
      intros (q' & ? & ? & ? & ? & Eq & _ & _ & E & _); injection Eq as <-;
      congruence].
  destruct (let? v := getitem v_list 0 in slice2 q v) as [vs|e4] eqn:E4;
    [|do 2 eexists; repeat split;
      intros (q' & ? & ? & ? & ? & Eq & _ & _ & _ & E & _); injection Eq as <-;
      congruence].
  do 2 eexists. repeat split.
Qed.

Lemma eta_animation3D_ffmpeg {F : Type} `{PyFloat F}
    (render : figure F -> image) (X Y : array2 F) (eta_list : list (array2 F))
    (frame_interval : F) (out_folder writer : string) (FPS : Z) (s : state F) :
  writer <> "opencv" ->
  exists (e : exn) (s' : state F),
    eta_animation3D render X Y eta_list frame_interval out_folder writer FPS s
      = (Raise e, s') /\
    st_fs s' = st_fs s /\ st_dirs s' = st_dirs s /\ st_log s' = st_log s /\
    (surf_setup_ok X Y eta_list -> e = NameError "filename").
Proof.
  intros Hw. unfold eta_animation3D, surf_setup_ok, is_ok, mbind, lift, new_figure,
    set_artist, modify_fig.
  rewrite (writer_not_opencv _ Hw).
  destruct (getitem eta_list 0) as [eta0|e0];
    [|do 2 eexists; repeat split; intros [(? & ? & _) _]; congruence].
  destruct (np_array eta_list) as [arr|e1];
    [|do 2 eexists; repeat split; intros (_ & ? & ? & _); congruence].
  destruct (amin (concat (concat arr))) as [lo|e2] eqn:E2;
    [|do 2 eexists; repeat split;
      intros (_ & arr' & Ea & [? E] & _); injection Ea as <-; congruence].
  destruct (amax (concat (concat arr))) as [hi|e3] eqn:E3;
    [|do 2 eexists; repeat split;
      intros (_ & arr' & Ea & _ & [? E]); injection Ea as <-; congruence].
  do 2 eexists. repeat split.
Qed.




(** In exact arithmetic the set-up succeeds under the conditions one
    expects of the inputs. *)
Lemma mapM_is_ok {A B} (f : A -> result B) (l : list A) :
  (forall x, is_ok (f x)) -> is_ok (mapM f l).
Proof.
  intros Hf. induction l as [|x l [ys IH]]; [now exists []|].
  destruct (Hf x) as [y Hy]. exists (y :: ys). cbn [mapM]. now rewrite Hy, IH.
Qed.

Lemma slice2_is_ok {A} (q : Z) (a : list (list A)) : q <> 0 -> is_ok (slice2 q a).
Proof.
  intros Hq.
  assert (Hs : forall B (l : list B), is_ok (slice_step q l)).
  { intros B l. unfold slice_step. destruct (Z.eqb_spec q 0); [contradiction|].
    destruct (0 <? q); eexists; reflexivity. }
  unfold slice2. destruct (Hs _ a) as [rows ->]. cbn [rbind].
  apply mapM_is_ok. intros row. apply Hs.
Qed.

Lemma Q_eta_setup_ok (X Y : array2 Q) (eta_list : list (array2 Q))
    (mid : array2 Q) (n0 n1 : nat) :
  rectangular X n0 n1 -> rectangular Y n0 n1 ->
  Forall (fun eta => rectangular eta n0 n1) eta_list ->
  eta_list !! (length eta_list / 2)%nat = Some mid -> concat mid <> [] ->
  eta_setup_ok X Y eta_list.
Proof.
  intros HX HY Hshape Hmid Hne. split.
  - destruct eta_list as [|eta0 rest]; [discriminate|]. exists eta0.
    split; [reflexivity|]. inversion Hshape; subst.
    now apply (rectangular_grid_fits X Y eta0 n0 n1).
  - destruct (Q_mid_magnitude eta_list mid Hmid Hne) as (m & Em & _). now exists m.
Qed.

Lemma Q_surf_setup_ok (X Y : array2 Q) (eta_list : list (array2 Q))
    (n0 n1 : nat) :
  eta_list <> [] -> (0 < n0)%nat -> (0 < n1)%nat ->
  rectangular X n0 n1 -> rectangular Y n0 n1 ->
  Forall (fun eta => rectangular eta n0 n1) eta_list ->
  surf_setup_ok X Y eta_list.
Proof.
  intros Hne Hn0 Hn1 HX HY Hshape. split.
  - destruct eta_list as [|eta0 rest]; [congruence|]. exists eta0.
    inversion Hshape; subst. split; [reflexivity|].
    split; now apply (rectangular_same_shape _ eta0 n0 n1).
  - exists eta_list. split; [now apply (np_array_uniform _ n0 n1)|].
    assert (Hent : concat (concat eta_list) <> []).
    { destruct eta_list as [|eta0 rest]; [congruence|].
      inversion Hshape as [|? ? Hr0 _]; subst.
      pose proof (rectangular_nonempty _ _ _ Hr0 Hn0 Hn1) as Hc.
      cbn [concat]. rewrite concat_app.
      destruct (concat eta0); [congruence | discriminate]. }
    destruct (Q_amin _ Hent) as (lo & -> & _).
    destruct (Q_amax _ Hent) as (hi & -> & _).
    split; eexists; reflexivity.
Qed.

(** ** eta_meshes *)

Section EtaMeshes.
Context {F : Type} `{PyFloat F}.
Variable marching_cubes_func :
  point3 F -> point3 F -> Z -> Z -> Z -> (F -> F -> F -> result F) -> F ->
  result (mesh F).
Variables (eta_list : list (array2 F)) (bounds : bbox F) (res : Z).
Variables (meshes_folder : string) (ms : list (mesh F)).
Hypothesis no_task_fails :
  Forall2 (fun eta m => extract_mesh marching_cubes_func eta bounds res = Ok m)
          eta_list ms.

Local Abbreviation name := (mesh_name meshes_folder).
Local Abbreviation mesh_of := (fun k : nat => nth k ms ([], [])).
Local Abbreviation run := (meshes_run meshes_folder ms).
Local Abbreviation task :=
  (mesh_task marching_cubes_func eta_list bounds res meshes_folder).

Lemma get_mesh_run (i : nat) (eta : array2 F) (m : mesh F) (s : state F) :
  extract_mesh marching_cubes_func eta bounds res = Ok m ->
  get_mesh marching_cubes_func i eta bounds res meshes_folder s
  = (Ok tt, State (st_fig s) (st_dirs s) (<[name i := FMesh m]> (st_fs s))
                  (st_log s ++ [EExportObj (name i) m])).
Proof.
  unfold extract_mesh, get_mesh, mbind, lift. intros Hm.
  destruct (axis_resolutions res bounds) as [[[resx resy] resz]|e]; [|discriminate].
  cbn [rbind] in Hm. rewrite Hm. reflexivity.
Qed.

Lemma mesh_task_run (k : nat) (s : state F) :
  (k < length eta_list)%nat ->
  task k s
  = (Ok tt, State (st_fig s) (st_dirs s) (<[name k := FMesh (mesh_of k)]> (st_fs s))
                  (st_log s ++ [EExportObj (name k) (mesh_of k)])).
Proof.
  intros Hk. destruct (lookup_lt_is_Some_2 eta_list k Hk) as [eta Heta].
  destruct (Forall2_lookup_l _ _ _ _ _ no_task_fails Heta) as (m & Hm & Hex).
  unfold mesh_task, mbind, lift. rewrite (getitem_lookup _ _ _ Heta).
  rewrite (get_mesh_run k eta m s Hex). now rewrite (nth_lookup_Some _ _ _ _ Hm).
Qed.

Lemma Parallel_run (sched : list nat) (s : state F) :
  Forall (fun k => (k < length eta_list)%nat) sched ->
  Parallel (map task (seq 0 (length eta_list))) sched s = (Ok tt, run sched s).
Proof.
  intros Hs. revert s. induction Hs as [|k sched Hk Hs IH]; intros s; [reflexivity|].
  cbn [Parallel meshes_run fold_left].
  rewrite list_lookup_fmap, lookup_seq_lt by assumption.
  cbn [fmap option_fmap option_map Nat.add].
  unfold mbind at 1. rewrite (mesh_task_run k s Hk). apply IH.
Qed.

Lemma meshes_run_log (sched : list nat) (s : state F) :
  st_log (run sched s)
  = (st_log s ++ map (fun k => EExportObj (name k) (mesh_of k)) sched)%list.
Proof.
  revert s. induction sched as [|k sched IH]; intros s.
  - cbn. now rewrite app_nil_r.
  - cbn [meshes_run fold_left map].
    fold (run sched (State (st_fig s) (st_dirs s)
                           (<[name k := FMesh (mesh_of k)]> (st_fs s))
                           (st_log s ++ [EExportObj (name k) (mesh_of k)]))).
    rewrite IH. cbn [st_log]. now rewrite <- app_assoc.
Qed.

Lemma meshes_run_dirs (sched : list nat) (s : state F) :
  st_dirs (run sched s) = st_dirs s.
Proof.
  revert s. induction sched as [|k sched IH]; intros s; [reflexivity|].
  cbn [meshes_run fold_left].
  fold (run sched (State (st_fig s) (st_dirs s)
                         (<[name k := FMesh (mesh_of k)]> (st_fs s))
                         (st_log s ++ [EExportObj (name k) (mesh_of k)]))).
  now rewrite IH.
Qed.

Lemma meshes_run_other (sched : list nat) (s : state F) (p : string) :
  (forall k, k ∈ sched -> p <> name k) ->
  st_fs (run sched s) !! p = st_fs s !! p.
Proof.
  revert s. induction sched as [|k sched IH]; intros s Hp; [reflexivity|].
  cbn [meshes_run fold_left].
  fold (run sched (State (st_fig s) (st_dirs s)
                         (<[name k := FMesh (mesh_of k)]> (st_fs s))
                         (st_log s ++ [EExportObj (name k) (mesh_of k)]))).
  rewrite IH by (intros j Hj; apply Hp; now right).
  cbn [st_fs]. apply lookup_insert_ne. intros E. apply (Hp k); [left | now symmetry].
Qed.

Lemma meshes_run_file (sched : list nat) (s : state F) (k : nat) :
  k ∈ sched -> st_fs (run sched s) !! name k = Some (FMesh (mesh_of k)).
Proof.
  revert s. induction sched as [|j sched IH]; intros s Hk; [inversion Hk|].
  cbn [meshes_run fold_left].
  fold (run sched (State (st_fig s) (st_dirs s)
                         (<[name j := FMesh (mesh_of j)]> (st_fs s))
                         (st_log s ++ [EExportObj (name j) (mesh_of j)]))).
  destruct (decide (k ∈ sched)) as [Hin | Hnin]; [now apply IH|].
  assert (k = j) as <- by (inversion Hk; subst; [reflexivity | contradiction]).
  rewrite meshes_run_other.
  - cbn [st_fs]. apply lookup_insert_eq.
  - intros i Hi E. apply mesh_name_inj in E. congruence.
Qed.

Lemma eta_meshes_run (sched : list nat) (s : state F) :
  sched ≡ₚ seq 0 (length eta_list) ->
  eta_meshes marching_cubes_func eta_list bounds res meshes_folder sched s
  = (Ok (RInt 0),
     run sched (State (st_fig s) ({[meshes_folder]} ∪ st_dirs s) (st_fs s)
                      (st_log s ++ [EMkdir meshes_folder]))).
Proof.
  intros Hperm. unfold eta_meshes, mbind at 1, mkdir at 1.
  unfold mbind at 1. rewrite Parallel_run; [reflexivity|].
  apply Forall_forall. intros k Hk. rewrite Hperm in Hk.
  apply elem_of_seq in Hk. lia.
Qed.

End EtaMeshes.

(** C4.  Let no extraction fail: snapshot [i] yields the mesh [m_i], a
    function of that snapshot, the bounds and the resolution only.  Then in
    whatever order the tasks complete, [eta_meshes] returns 0, exports
    exactly [N] meshes, one per index, under the [N] different names
    [mesh_{i:08d}.obj], file [i] holding [m_i], and leaves every other path
    as it was. *)
Theorem eta_meshes_one_file_per_snapshot {F : Type} `{PyFloat F}
    (marching_cubes_func :
       point3 F -> point3 F -> Z -> Z -> Z -> (F -> F -> F -> result F) -> F ->
       result (mesh F))
    (eta_list : list (array2 F)) (bounds : bbox F) (res : Z)
    (meshes_folder : string) (ms : list (mesh F)) (sched : list nat)
    (s : state F) :
  let N := length eta_list in
  Forall2 (fun eta m => extract_mesh marching_cubes_func eta bounds res = Ok m)
          eta_list ms ->
  sched ≡ₚ seq 0%nat N ->
  exists (s' : state F) (log : list (effect F)),
    eta_meshes marching_cubes_func eta_list bounds res meshes_folder sched s
      = (Ok (RInt 0), s') /\
    st_log s' = (st_log s ++ EMkdir meshes_folder :: log)%list /\
    exported_meshes log
      ≡ₚ map (fun i => (mesh_name meshes_folder i, nth i ms ([], []))) (seq 0%nat N) /\
    length (exported_meshes log) = N /\
    NoDup (map (mesh_name meshes_folder) (seq 0%nat N)) /\
    (forall i : nat, (i < N)%nat ->
       mesh_name meshes_folder i
         = (meshes_folder ++ "/" ++ "mesh_" ++ format_08d i ++ ".obj")%string /\
       digits_value (format_08d i) = N.of_nat i /\
       ((N.of_nat i < 100000000)%N -> String.length (format_08d i) = 8%nat)) /\
    (forall (i : nat) (eta : array2 F),
       eta_list !! i = Some eta ->
       exists m : mesh F,
         extract_mesh marching_cubes_func eta bounds res = Ok m /\
         st_fs s' !! mesh_name meshes_folder i = Some (FMesh m)) /\
    (forall p : string,
       (forall i : nat, (i < N)%nat -> p <> mesh_name meshes_folder i) ->
       st_fs s' !! p = st_fs s !! p).
Proof.
  intros N Hok Hperm.
  eexists. exists (map (fun k => EExportObj (mesh_name meshes_folder k)
                                            (nth k ms ([], []))) sched).
  split; [now apply (eta_meshes_run marching_cubes_func eta_list bounds res
                       meshes_folder ms Hok)|].
  split.
  { rewrite meshes_run_log. cbn [st_log]. now rewrite <- app_assoc. }
  assert (Hexp : exported_meshes
                   (map (fun k => EExportObj (F := F) (mesh_name meshes_folder k)
                                             (nth k ms ([], []))) sched)
                 = map (fun i => (mesh_name meshes_folder i, nth i ms ([], []))) sched).
  { clear Hperm. unfold exported_meshes.
    induction sched as [|k l IH]; [reflexivity|].
    cbn [map]. rewrite omap_step. f_equal.
    apply IH. }
  split; [rewrite Hexp; now apply fmap_Permutation|].
  split.
  { rewrite Hexp, length_map, Hperm. apply length_seq. }
  split.
  { apply NoDup_fmap_2; [|apply NoDup_seq]. intros i j. apply mesh_name_inj. }
  split.
  { intros i Hi. split; [reflexivity|]. split; [apply format_08d_value|].
    apply format_08d_length. }
  split.
  - intros i eta Heta.
    destruct (Forall2_lookup_l _ _ _ _ _ Hok Heta) as (m & Hm & Hex).
    exists m. split; [exact Hex|].
    rewrite meshes_run_file.
    + now rewrite (nth_lookup_Some _ _ _ _ Hm).
    + rewrite Hperm. apply elem_of_seq. apply lookup_lt_Some in Heta. lia.
  - intros p Hp. rewrite meshes_run_other; [reflexivity|].
    intros k Hk. apply Hp. rewrite Hperm in Hk. apply elem_of_seq in Hk. lia.
Qed.

Lemma eta_meshes_one_file_per_snapshot_witness :
  let mc := fun (lower upper : point3 Q) (nx ny nz : Z)
                (f : Q -> Q -> Q -> result Q) (iso : Q) =>
              Ok ([lower; upper], [(nx, ny, nz)]) : result (mesh Q) in
  let flat : array2 Q := [[0; 0]; [0; 0]]%Q in
  exists s' : state Q,
    eta_meshes mc [flat; flat; flat] ((0, 0, -1), (1, 1, 1))%Q 8 "meshes"
               [2; 0; 1]%nat initial_state
    = (Ok (RInt 0), s') /\
    st_fs s' !! "meshes/mesh_00000002.obj"
    = Some (FMesh ([(0, 0, -1); (1, 1, 1)]%Q, [(4, 4, 8)])).
Proof.
  intros mc flat.
  destruct (eta_meshes_one_file_per_snapshot mc [flat; flat; flat]
              ((0, 0, -1), (1, 1, 1))%Q 8 "meshes"
              (replicate 3 ([(0, 0, -1); (1, 1, 1)]%Q, [(4, 4, 8)]))
              [2; 0; 1]%nat initial_state)
    as (s' & log & Hrun & _ & _ & _ & _ & _ & Hfile & _).
  - cbn [replicate]. repeat (constructor; [vm_compute; reflexivity|]). constructor.
  - apply (Permutation_cons_append [0; 1]%nat 2%nat).
  - exists s'. split; [exact Hrun|].
    destruct (Hfile 2%nat flat eq_refl) as (m & Hm & Hlook).
    vm_compute in Hm. injection Hm as <-. exact Hlook.
Defined.

(** The files do not depend on the order in which the tasks complete. *)
Lemma eta_meshes_order_irrelevant {F : Type} `{PyFloat F}
    (marching_cubes_func :
       point3 F -> point3 F -> Z -> Z -> Z -> (F -> F -> F -> result F) -> F ->
       result (mesh F))
    (eta_list : list (array2 F)) (bounds : bbox F) (res : Z)
    (meshes_folder : string) (ms : list (mesh F)) (sched1 sched2 : list nat)
    (s : state F) :
  Forall2 (fun eta m => extract_mesh marching_cubes_func eta bounds res = Ok m)
          eta_list ms ->
  sched1 ≡ₚ seq 0 (length eta_list) -> sched2 ≡ₚ seq 0 (length eta_list) ->
  st_fs (snd (eta_meshes marching_cubes_func eta_list bounds res meshes_folder
                         sched1 s))
  = st_fs (snd (eta_meshes marching_cubes_func eta_list bounds res meshes_folder
                           sched2 s)).
Proof.
  intros Hok H1 H2.
  rewrite !(eta_meshes_run marching_cubes_func eta_list bounds res meshes_folder
              ms Hok) by assumption.
  cbn [snd]. apply map_eq. intros p.
  destruct (decide (p ∈ map (mesh_name meshes_folder) (seq 0 (length eta_list))))
    as [Hin | Hnin].
  - apply list_elem_of_fmap in Hin. destruct Hin as (k & -> & Hk).
    rewrite !meshes_run_file; [reflexivity | now rewrite H2 | now rewrite H1].
  - rewrite !meshes_run_other; [reflexivity | |].
    + intros k Hk ->. apply Hnin. apply list_elem_of_fmap. exists k.
      split; [reflexivity | now rewrite <- H2].
    + intros k Hk ->. apply Hnin. apply list_elem_of_fmap. exists k.
      split; [reflexivity | now rewrite <- H1].
Qed.

(** ** Checks on concrete inputs *)

Example format_08d_small :
  format_08d 0 = "00000000" /\ format_08d 7 = "00000007" /\
  format_08d 4321 = "00004321".
Proof. repeat split; vm_compute; reflexivity. Qed.

Example zfill_wide : zfill 8 (str_of_N 123456789) = "123456789".
Proof. vm_compute. reflexivity. Qed.

Example frame_name_42 :
  frame_name (path_join "out" "frames") 42 = "out/frames/frame_00000042.png".
Proof. vm_compute. reflexivity. Qed.

(** The scenario of the specification: the box [(0,0,-1), (1,1,1)] at
    resolution 8, in exact arithmetic and on binary64. *)
Example axis_resolutions_unit_box :
  axis_resolutions (F := Q) 8 ((0, 0, -1), (1, 1, 1))%Q = Ok (4, 4, 8) /\
  axis_resolutions (F := float) 8 ((0, 0, -1), (1, 1, 1))%float = Ok (4, 4, 8).
Proof. split; vm_compute; reflexivity. Qed.

(** [int()] on binary64 drops the fraction, toward zero on both sides. *)
Example int_truncates_toward_zero :
  to_int (literal 9 10 : float) = Ok 0 /\
  to_int (literal (-9) 10 : float) = Ok 0 /\
  to_int (literal 5 2 : float) = Ok 2 /\
  to_int (literal (-5) 2 : float) = Ok (-2).
Proof. repeat split; vm_compute; reflexivity. Qed.

Example sdf_flat_surface :
  sdf (F := float) [[0; 0]; [0; 0]]%float ((0, 0, -1), (1, 1, 1))%float
      0.5%float 0.5%float 0.25%float
  = Ok (-0.25)%float.
Proof. vm_compute. reflexivity. Qed.

Example quiver_stride_binary64 :
  quiver_stride (F := float) (replicate 100 (replicate 120 0%float)) = Ok 2.
Proof. vm_compute. reflexivity. Qed.

(** * Further properties of the code *)

(** ** Strided slices *)

Lemma every_lookup {A} (fuel q : nat) (l : list A) (k : nat) :
  (1 <= q)%nat -> (length l <= fuel)%nat ->
  every fuel q l !! k = l !! (k * q)%nat.
Proof.
  intros Hq. revert l k. induction fuel as [|fuel IH]; intros l k Hlen.
  - destruct l; [|cbn in Hlen; lia]. cbn. now rewrite !lookup_nil.
  - destruct l as [|x l]; [cbn; now rewrite !lookup_nil|].
    cbn [every]. destruct k as [|k]; [reflexivity|].
    cbn [lookup list_lookup]. change (list_lookup k) with (lookup (M := list A) k).
    rewrite IH.
    + change (skipn q (x :: l)) with (drop q (x :: l)). rewrite lookup_drop.
      reflexivity.
    + rewrite length_skipn. cbn in *. lia.
Qed.

Lemma slice_step_pos {A} (q : nat) (l : list A) :
  (1 <= q)%nat -> slice_step (Z.of_nat q) l = Ok (every (length l) q l).
Proof.
  intros Hq. unfold slice_step.
  destruct (Z.eqb_spec (Z.of_nat q) 0); [lia|].
  destruct (Z.ltb_spec 0 (Z.of_nat q)); [|lia]. now rewrite Nat2Z.id.
Qed.

Lemma slice2_subsample {A} (q : nat) (a : list (list A)) :
  (1 <= q)%nat -> slice2 (Z.of_nat q) a = Ok (subsample q a).
Proof.
  intros Hq. unfold slice2, subsample. rewrite slice_step_pos by assumption.
  cbn [rbind]. apply mapM_map, Forall_forall. intros row _.
  now apply slice_step_pos.
Qed.

(** Entry (i, j) of [a[::q, ::q]] is entry (i q, j q) of [a]. *)
Lemma subsample_lookup {A} (q : nat) (a : list (list A)) (i j : nat) :
  (1 <= q)%nat ->
  subsample q a !! i ≫= (fun row => row !! j)
  = a !! (i * q)%nat ≫= (fun row => row !! (j * q)%nat).
Proof.
  intros Hq. unfold subsample. rewrite list_lookup_fmap.
  rewrite every_lookup by lia.
  destruct (a !! (i * q)%nat) as [row|]; [|reflexivity].
  cbn. now apply every_lookup.
Qed.

(** ** quiver_plot *)


(** ** hovmuller_plot *)

Lemma column_lookup {A} (j : nat) (a : list (list A)) (i : nat) :
  Forall (fun row => (j < length row)%nat) a ->
  column j a !! i = a !! i ≫= (fun row => row !! j).
Proof.
  intros Ha. revert i. induction Ha as [|row a Hrow Ha IH]; intros i.
  - cbn. now rewrite !lookup_nil.
  - unfold column in *. rewrite omap_step.
    destruct (lookup_lt_is_Some_2 row j Hrow) as [v Hv]. rewrite Hv.
    destruct i as [|i]; [cbn; now rewrite Hv|]. cbn. apply IH.
Qed.

Lemma column_length {A} (j : nat) (a : list (list A)) :
  Forall (fun row => (j < length row)%nat) a -> length (column j a) = length a.
Proof.
  induction 1 as [|row a Hrow Ha IH]; [reflexivity|].
  unfold column in *. rewrite omap_step.
  destruct (lookup_lt_is_Some_2 row j Hrow) as [v ->]. cbn. now rewrite IH.
Qed.

(** Entry (j, i) of the transpose is entry (i, j) of the array. *)
Lemma transpose_lookup {A} (a : list (list A)) (n0 n1 : nat) (i j : nat) :
  rectangular a n0 n1 ->
  transpose a !! j ≫= (fun col => col !! i) = a !! i ≫= (fun row => row !! j).
Proof.
  intros [Hlen Hrows]. unfold transpose.
  destruct a as [|r0 a'] eqn:Ea.
  { cbn. now rewrite !lookup_nil. }
  rewrite <- Ea in *. assert (Hhd : length (hd [] a) = n1).
  { rewrite Ea. cbn. rewrite Ea in Hrows. now inversion Hrows. }
  rewrite Hhd, list_lookup_fmap.
  destruct (decide (j < n1)%nat) as [Hj | Hj].
  - rewrite lookup_seq_lt by assumption. cbn.
    apply column_lookup. eapply Forall_impl; [exact Hrows|].
    intros row Hrow. cbv beta in Hrow. lia.
  - rewrite lookup_seq_ge by lia. cbn.
    destruct (a !! i) as [row|] eqn:Hrow; [|reflexivity]. cbn.
    symmetry. apply lookup_ge_None.
    rewrite (Forall_lookup_1 _ _ _ _ Hrows Hrow). lia.
Qed.

Lemma transpose_rectangular {A} (a : list (list A)) (n0 n1 : nat) :
  rectangular a n0 n1 -> (0 < n0)%nat -> rectangular (transpose a) n1 n0.
Proof.
  intros [Hlen Hrows] Hn0. unfold transpose.
  assert (Hhd : length (hd [] a) = n1).
  { destruct a as [|r0 a']; [cbn in Hlen; lia|]. cbn. now inversion Hrows. }
  rewrite Hhd. split; [now rewrite length_map, length_seq|].
  apply Forall_fmap, Forall_forall. intros j Hj. apply elem_of_seq in Hj. cbn.
  rewrite column_length; [exact Hlen|].
  eapply Forall_impl; [exact Hrows|]. intros row Hrow. cbv beta in Hrow. lia.
Qed.

Lemma elem_of_concat_lookup {A} (a : list (list A)) (v : A) :
  v ∈ concat a <-> exists i j, a !! i ≫= (fun row => row !! j) = Some v.
Proof.
  rewrite list_elem_of_In, in_concat. split.
  - intros (row & Hrow & Hv).
    apply list_elem_of_In, list_elem_of_lookup in Hrow. destruct Hrow as [i Hi].
    apply list_elem_of_In, list_elem_of_lookup in Hv. destruct Hv as [j Hj].
    exists i, j. rewrite Hi. exact Hj.
  - intros (i & j & Hij). destruct (a !! i) as [row|] eqn:Hi; [|discriminate].
    cbn in Hij. exists row. split.
    + apply list_elem_of_In, list_elem_of_lookup. eauto.
    + apply list_elem_of_In, list_elem_of_lookup. eauto.
Qed.

(** Transposing keeps the entries. *)
Lemma transpose_entries {A} (a : list (list A)) (n0 n1 : nat) (v : A) :
  rectangular a n0 n1 -> v ∈ concat (transpose a) <-> v ∈ concat a.
Proof.
  intros Ha. rewrite !elem_of_concat_lookup. split.
  - intros (j & i & Hv). exists i, j. now rewrite <- (transpose_lookup a n0 n1).
  - intros (i & j & Hv). exists j, i. now rewrite (transpose_lookup a n0 n1).
Qed.

Lemma np_array2_rectangular {F : Type} `{PyFloat F} (rows : list (list F))
    (n0 n1 : nat) :
  rectangular rows n0 n1 -> np_array2 rows = Ok rows.
Proof.
  intros [_ Hrows]. unfold np_array2. destruct rows as [|r rows']; [reflexivity|].
  assert (E : forallb (fun r' => Nat.eqb (length r') (length r)) (r :: rows') = true);
    [|now rewrite E].
  apply forallb_forall. intros r' Hr'. apply Nat.eqb_eq.
  rewrite Forall_forall in Hrows.
  rewrite (Hrows r'), (Hrows r); [reflexivity | left | now apply list_elem_of_In].
Qed.

Lemma meshgrid_rectangular {F : Type} `{PyFloat F} (x t : list F) :
  rectangular (fst (meshgrid x t)) (length t) (length x) /\
  rectangular (snd (meshgrid x t)) (length t) (length x).
Proof.
  unfold meshgrid, rectangular. cbn [fst snd]. rewrite !length_map.
  repeat split; apply Forall_fmap, Forall_forall; intros ti _; cbn;
    [reflexivity | apply length_map].
Qed.

(** X2.  For [len(t)] rows of [len(x)] values each, [hovmuller_plot] succeeds
    and writes nothing; the colour mesh it draws has the value
    [eta[i][j]] at cell (j, i), where the x-grid holds [x[j]] and the
    t-grid holds [t[i]]; its colour limits are the least and the greatest
    entry of [eta]. *)
Theorem hovmuller_plot_places_values (x t : list Q) (eta : list (list Q))
    (s : state Q) :
  rectangular eta (length t) (length x) ->
  (0 < length t)%nat -> (0 < length x)%nat ->
  exists (X T C : list (list Q)) (vmin vmax : Q) (s' : state Q),
    hovmuller_plot x t eta s = (Ok tt, s') /\
    st_fs s' = st_fs s /\ st_dirs s' = st_dirs s /\ st_log s' = st_log s /\
    fig_artist (st_fig s') = Some (PColorMesh X T (concat C) vmin vmax) /\
    (forall (i j : nat) (xj ti v : Q),
       x !! j = Some xj -> t !! i = Some ti ->
       eta !! i ≫= (fun row => row !! j) = Some v ->
       X !! j ≫= (fun col => col !! i) = Some xj /\
       T !! j ≫= (fun col => col !! i) = Some ti /\
       C !! j ≫= (fun col => col !! i) = Some v) /\
    Forall (fun v => (vmin <= v <= vmax)%Q) (concat eta) /\
    vmin ∈ concat eta /\ vmax ∈ concat eta.
Proof.
  intros Heta Ht Hx.
  destruct (meshgrid_rectangular x t) as [HX HT].
  assert (Hent : concat (transpose eta) <> []).
  { pose proof (rectangular_nonempty _ _ _ Heta Ht Hx) as Hne.
    destruct (concat eta) as [|v l] eqn:Ec; [congruence|].
    assert (Hv : v ∈ concat (transpose eta)).
    { apply (transpose_entries eta _ _ v Heta). rewrite Ec. left. }
    intros E. rewrite E in Hv. inversion Hv. }
  destruct (Q_amin _ Hent) as (vmin & Emin & Hlo & Hminin).
  destruct (Q_amax _ Hent) as (vmax & Emax & Hhi & Hmaxin).
  exists (transpose (fst (meshgrid x t))), (transpose (snd (meshgrid x t))),
         (transpose eta), vmin, vmax.
  eexists. split.
  { pose proof (rectangular_grid_fits _ _ _ (length x) (length t)
                  (transpose_rectangular _ _ _ HX Ht)
                  (transpose_rectangular _ _ _ HT Ht)
                  (transpose_rectangular _ _ _ Heta Ht)) as Hfit.
    unfold meshgrid in Hfit. cbn [fst snd] in Hfit.
    unfold hovmuller_plot. cbn [meshgrid fst snd].
    unfold mbind, lift. rewrite (np_array2_rectangular eta _ _ Heta).
    unfold new_figure, modify_fig at 1. cbn [st_fig st_dirs st_fs st_log].
    rewrite Emin, Emax. cbn [rbind]. unfold pcolormesh. rewrite Hfit.
    reflexivity. }
  cbn [st_fs st_dirs st_log st_fig fig_artist].
  split; [reflexivity|]. split; [reflexivity|]. split; [reflexivity|].
  split; [reflexivity|]. split.
  { intros i j xj ti v Hxj Hti Hv.
    rewrite (transpose_lookup _ _ _ i j HX), (transpose_lookup _ _ _ i j HT),
      (transpose_lookup _ _ _ i j Heta).
    unfold meshgrid. cbn [fst snd]. rewrite !list_lookup_fmap, Hti. cbn.
    rewrite list_lookup_fmap, Hxj. auto. }
  split.
  { apply Forall_forall. intros v Hv.
    apply (transpose_entries eta _ _ v Heta) in Hv.
    rewrite Forall_forall in Hlo, Hhi. auto. }
  split; now apply (transpose_entries eta _ _ _ Heta).
Qed.

Lemma hovmuller_plot_places_values_witness :
  exists s' : state Q,
    hovmuller_plot [0; 10; 20]%Q [0; 1]%Q [[1; 2; 3]; [4; 5; 6]]%Q initial_state
    = (Ok tt, s') /\
    fig_artist (st_fig s')
    = Some (PColorMesh [[0; 0]; [10; 10]; [20; 20]]%Q [[0; 1]; [0; 1]; [0; 1]]%Q
                       [1; 4; 2; 5; 3; 6]%Q 1%Q 6%Q).
Proof.
  destruct (hovmuller_plot_places_values [0; 10; 20]%Q [0; 1]%Q
              [[1; 2; 3]; [4; 5; 6]]%Q initial_state)
    as (X & T & C & vmin & vmax & s' & Hrun & _).
  - split; [reflexivity|]. repeat constructor.
  - cbn. lia.
  - cbn. lia.
  - exists s'. split; [exact Hrun|].
    vm_compute in Hrun. injection Hrun as <-. reflexivity.
Defined.

(** ** The scalar field outside the array *)

(** X5.  [sdf] does not guard the indices it computes.  Whatever the float
    arithmetic, a negative column index down to minus the number of rows
    does not fail: it wraps around, and the field silently returns the
    height of row [shape[0] + col], counted from the far end; only an
    index below that, or from the number of rows on, raises IndexError. *)
Theorem sdf_below_box_wraps {F : Type} `{PyFloat F} (eta : array2 F)
    (n0 n1 : nat) (x_min y_min z_min x_max y_max z_max x y z : F)
    (col row : Z) :
  let b : bbox F := ((x_min, y_min, z_min), (x_max, y_max, z_max)) in
  rectangular eta n0 n1 ->
  axis_index (shape0 eta) x_min x_max x = Ok col ->
  axis_index (shape1 eta) y_min y_max y = Ok row ->
  0 <= row < shape1 eta ->
  (- shape0 eta <= col < 0 ->
   exists (line : list F) (h : F),
     eta !! Z.to_nat (shape0 eta + col) = Some line /\
     line !! Z.to_nat row = Some h /\
     sdf eta b x y z = Ok (fsub h z)) /\
  (col < - shape0 eta \/ shape0 eta <= col ->
   sdf eta b x y z = Raise IndexError).
Proof.
  intros b Hrect Hcol Hrow Hr. unfold b.
  rewrite sdf_axis_index, Hcol, Hrow. cbn [rbind]. unfold getitem2. split.
  - intros Hc. destruct (getitem_negative eta col Hc) as (line & Hline & Eline).
    rewrite (rectangular_shape1 eta n0 n1 line _ Hrect Hline) in Hr.
    destruct (getitem_in_range line row Hr) as (h & Hh & Eh).
    exists line, h. split; [exact Hline|]. split; [exact Hh|].
    rewrite Eline. cbn [rbind]. now rewrite Eh.
  - intros Hc. rewrite getitem_out_of_range; [reflexivity|].
    unfold shape0 in Hc. lia.
Qed.

Lemma sdf_below_box_wraps_witness :
  let eta : array2 float := [[0]; [1]; [2]; [3]]%float in
  let b : bbox float := ((0, 0, -1), (1, 1, 5))%float in
  axis_index (shape0 eta) 0%float 1%float (-0.5)%float = Ok (-1) /\
  exists (line : list float) (h : float),
    eta !! 3%nat = Some line /\ line !! 0%nat = Some h /\
    sdf eta b (-0.5)%float 0%float 0%float = Ok (fsub h 0%float).
Proof.
  intros eta b. split; [vm_compute; reflexivity|].
  destruct (sdf_below_box_wraps eta 4 1 0%float 0%float (-1)%float 1%float
              1%float 5%float (-0.5)%float 0%float 0%float (-1) 0)
    as [Hwrap _].
  - split; [reflexivity|]. repeat constructor.
  - vm_compute. reflexivity.
  - vm_compute. reflexivity.
  - vm_compute. split; [discriminate | reflexivity].
  - apply Hwrap. vm_compute. split; [discriminate | reflexivity].
Defined.

(** ** eta_meshes when an extraction fails *)

Lemma get_mesh_cases {F : Type} `{PyFloat F}
    (marching_cubes_func :
       point3 F -> point3 F -> Z -> Z -> Z -> (F -> F -> F -> result F) -> F ->
       result (mesh F))
    (i : nat) (eta : array2 F) (bounds : bbox F) (res : Z) (out_folder : string)
    (s : state F) :
  get_mesh marching_cubes_func i eta bounds res out_folder s
  = match extract_mesh marching_cubes_func eta bounds res with
    | Ok m =>
        (Ok tt, State (st_fig s) (st_dirs s)
                      (<[mesh_name out_folder i := FMesh m]> (st_fs s))
                      (st_log s ++ [EExportObj (mesh_name out_folder i) m]))
    | Raise e => (Raise e, s)
    end.
Proof.
  unfold extract_mesh, get_mesh, mbind, lift.
  destruct (axis_resolutions res bounds) as [[[resx resy] resz]|e]; [|reflexivity].
  cbn [rbind].
  destruct (marching_cubes_func bounds.1 bounds.2 resx resy resz (sdf eta bounds)
              (of_int 0)); reflexivity.
Qed.

Section MeshFailure.
Context {F : Type} `{PyFloat F}.
Variable marching_cubes_func :
  point3 F -> point3 F -> Z -> Z -> Z -> (F -> F -> F -> result F) -> F ->
  result (mesh F).
Variables (eta_list : list (array2 F)) (bounds : bbox F) (res : Z).
Variables (meshes_folder : string) (k : nat) (eta_k : array2 F) (e_k : exn).
Hypothesis snapshot_k : eta_list !! k = Some eta_k.
Hypothesis fails_k : extract_mesh marching_cubes_func eta_k bounds res = Raise e_k.

Local Abbreviation tasks :=
  (map (mesh_task marching_cubes_func eta_list bounds res meshes_folder)
       (seq 0 (length eta_list))).

Lemma Parallel_failure (sched : list nat) (s : state F) :
  Forall (fun j => (j < length eta_list)%nat) sched ->
  exists (r : result unit) (s' : state F),
    Parallel tasks sched s = (r, s') /\
    st_fs s' !! mesh_name meshes_folder k = st_fs s !! mesh_name meshes_folder k /\
    (k ∈ sched ->
     exists (e : exn) (j : nat) (eta_j : array2 F),
       r = Raise e /\ eta_list !! j = Some eta_j /\
       extract_mesh marching_cubes_func eta_j bounds res = Raise e).
Proof.
  intros Hs. revert s. induction Hs as [|j sched Hj Hs IH]; intros s.
  - exists (Ok tt), s. split; [reflexivity|]. split; [reflexivity|].
    intros Hk. inversion Hk.
  - cbn [Parallel]. rewrite list_lookup_fmap, lookup_seq_lt by assumption.
    cbn [fmap option_fmap option_map Nat.add].
    destruct (lookup_lt_is_Some_2 eta_list j Hj) as [eta_j Hetaj].
    unfold mbind at 1, mesh_task at 1, mbind at 1, lift at 1.
    rewrite (getitem_lookup _ _ _ Hetaj), get_mesh_cases.
    destruct (extract_mesh marching_cubes_func eta_j bounds res) as [m|e] eqn:Eex.
    + assert (Hjk : j <> k).
      { intros ->. rewrite snapshot_k in Hetaj. injection Hetaj as <-. congruence. }
      destruct (IH (State (st_fig s) (st_dirs s)
                          (<[mesh_name meshes_folder j := FMesh m]> (st_fs s))
                          (st_log s ++ [EExportObj (mesh_name meshes_folder j) m])))
        as (r & s' & Hrun & Hfs & Hr).
      exists r, s'. split; [exact Hrun|]. split.
      * rewrite Hfs. cbn [st_fs]. apply lookup_insert_ne.
        intros E. apply mesh_name_inj in E. contradiction.
      * intros Hk. apply Hr. inversion Hk; subst; [contradiction | assumption].
    + exists (Raise e), s. split; [reflexivity|]. split; [reflexivity|].
      intros _. exists e, j, eta_j. auto.
Qed.

End MeshFailure.

(** X6.  A failing extraction is never swallowed.  If the extraction of some
    snapshot raises, then in whatever order the tasks complete
    [eta_meshes] raises the exception of a failed extraction instead of
    returning, and the mesh file of that snapshot is not written. *)
Theorem eta_meshes_failure_propagates {F : Type} `{PyFloat F}
    (marching_cubes_func :
       point3 F -> point3 F -> Z -> Z -> Z -> (F -> F -> F -> result F) -> F ->
       result (mesh F))
    (eta_list : list (array2 F)) (bounds : bbox F) (res : Z)
    (meshes_folder : string) (sched : list nat) (s : state F)
    (k : nat) (eta_k : array2 F) (e_k : exn) :
  eta_list !! k = Some eta_k ->
  extract_mesh marching_cubes_func eta_k bounds res = Raise e_k ->
  sched ≡ₚ seq 0%nat (length eta_list) ->
  exists (e : exn) (s' : state F) (j : nat) (eta_j : array2 F),
    eta_meshes marching_cubes_func eta_list bounds res meshes_folder sched s
      = (Raise e, s') /\
    eta_list !! j = Some eta_j /\
    extract_mesh marching_cubes_func eta_j bounds res = Raise e /\
    st_fs s' !! mesh_name meshes_folder k = st_fs s !! mesh_name meshes_folder k.
Proof.
  intros Hk Hfail Hperm.
  assert (Hs : Forall (fun j => (j < length eta_list)%nat) sched).
  { apply Forall_forall. intros j Hj. rewrite Hperm in Hj.
    apply elem_of_seq in Hj. lia. }
  destruct (Parallel_failure marching_cubes_func eta_list bounds res meshes_folder
              k eta_k e_k Hk Hfail sched
              (State (st_fig s) ({[meshes_folder]} ∪ st_dirs s) (st_fs s)
                     (st_log s ++ [EMkdir meshes_folder])) Hs)
    as (r & s' & Hrun & Hfs & Hr).
  destruct Hr as (e & j & eta_j & -> & Hj & Hej).
  { rewrite Hperm. apply elem_of_seq. apply lookup_lt_Some in Hk. lia. }
  exists e, s', j, eta_j. split; [|auto].
  unfold eta_meshes, mbind at 1, mkdir at 1. unfold mbind at 1. now rewrite Hrun.
Qed.

Lemma eta_meshes_failure_propagates_witness :
  let mc := fun (lower upper : point3 Q) (nx ny nz : Z)
                (f : Q -> Q -> Q -> result Q) (iso : Q) =>
              (let? d := f 2%Q 0%Q 0%Q in Ok ([lower; upper], [(nx, ny, nz)]))
              : result (mesh Q) in
  let flat : array2 Q := [[0; 0]; [0; 0]]%Q in
  exists s' : state Q,
    eta_meshes mc [flat; flat] ((0, 0, -1), (1, 1, 1))%Q 8 "meshes" [1; 0]%nat
               initial_state
    = (Raise IndexError, s') /\
    st_fs s' !! "meshes/mesh_00000000.obj" = None.
Proof.
  intros mc flat.
  destruct (eta_meshes_failure_propagates mc [flat; flat]
              ((0, 0, -1), (1, 1, 1))%Q 8 "meshes" [1; 0]%nat initial_state
              0%nat flat IndexError)
    as (e & s' & j & eta_j & Hrun & _ & _ & Hfs).
  - reflexivity.
  - vm_compute. reflexivity.
  - apply (Permutation_cons_append [0]%nat 1%nat).
  - exists s'. split; [|exact Hfs].
    vm_compute in Hrun. injection Hrun as <- <-. reflexivity.
Defined.

Lemma Q_axis_resolutions_flat (res : Z) (b : bbox Q) :
  (largest_extent b == 0)%Q -> axis_resolutions res b = Raise ZeroDivisionError.
Proof.
  intros Hrg. destruct b as [[[x_min y_min] z_min] [[x_max y_max] z_max]].
  unfold axis_resolutions. cbv beta iota zeta.
  unfold axis_res at 1. cbn [fdiv Q_PyFloat].
  apply Qeq_bool_iff in Hrg. now rewrite Hrg.
Qed.

(** X7.  On a box whose largest extent is zero, no axis resolution can be
    computed: with at least one snapshot, [eta_meshes] raises
    ZeroDivisionError in its first task and exports nothing, whatever the
    marching-cubes routine and the order of the tasks. *)
Theorem eta_meshes_flat_box
    (marching_cubes_func :
       point3 Q -> point3 Q -> Z -> Z -> Z -> (Q -> Q -> Q -> result Q) -> Q ->
       result (mesh Q))
    (eta_list : list (array2 Q)) (bounds : bbox Q) (res : Z)
    (meshes_folder : string) (sched : list nat) (s : state Q) :
  (largest_extent bounds == 0)%Q ->
  eta_list <> [] ->
  sched ≡ₚ seq 0%nat (length eta_list) ->
  exists s' : state Q,
    eta_meshes marching_cubes_func eta_list bounds res meshes_folder sched s
      = (Raise ZeroDivisionError, s') /\
    st_fs s' = st_fs s /\
    st_log s' = (st_log s ++ [EMkdir meshes_folder])%list.
Proof.
  intros Hflat Hne Hperm.
  destruct sched as [|j sched'].
  { apply Permutation_nil_l in Hperm. destruct eta_list; [congruence | discriminate]. }
  assert (Hj : (j < length eta_list)%nat).
  { assert (Hin : j ∈ j :: sched') by left. rewrite Hperm in Hin.
    apply elem_of_seq in Hin. lia. }
  destruct (lookup_lt_is_Some_2 eta_list j Hj) as [eta_j Hetaj].
  eexists. split.
  - unfold eta_meshes, mbind at 1, mkdir at 1. unfold mbind at 1.
    cbn [Parallel]. rewrite list_lookup_fmap, lookup_seq_lt by assumption.
    cbn [fmap option_fmap option_map Nat.add].
    unfold mbind at 1, mesh_task at 1, mbind at 1, lift at 1.
    rewrite (getitem_lookup _ _ _ Hetaj), get_mesh_cases.
    unfold extract_mesh. rewrite (Q_axis_resolutions_flat res bounds Hflat).
    reflexivity.
  - split; reflexivity.
Qed.

Lemma eta_meshes_flat_box_witness :
  exists s' : state Q,
    eta_meshes (fun _ _ _ _ _ _ _ => Ok ([], [])) [[[0%Q]]]
               ((1, 2, 3), (1, 2, 3))%Q 8 "meshes" [0%nat] initial_state
    = (Raise ZeroDivisionError, s') /\
    st_fs s' = ∅.
Proof.
  destruct (eta_meshes_flat_box (fun _ _ _ _ _ _ _ => Ok ([], [])) [[[0%Q]]]
              ((1, 2, 3), (1, 2, 3))%Q 8 "meshes" [0%nat] initial_state)
    as (s' & Hrun & Hfs & _).
  - reflexivity.
  - discriminate.
  - reflexivity.
  - exists s'. split; [exact Hrun | exact Hfs].
Defined.

(** ** The frame loop when an update fails *)

Section FrameLoopAbort.
Context {F : Type} `{PyFloat F}.
Variable render : figure F -> image.
Variable update : Z -> M (state F) unit.
Variable frame_fig : nat -> figure F.
Variable Inv : figure F -> Prop.
Variables (out_folder : string) (FPS : Z) (k : nat) (e : exn).

Hypothesis update_spec : forall (i : nat) (s : state F),
  (i < k)%nat -> Inv (st_fig s) ->
  update (Z.of_nat i) s
    = (Ok tt, State (frame_fig i) (st_dirs s) (st_fs s) (st_log s))
  /\ Inv (frame_fig i).
Hypothesis update_fails : forall s : state F,
  Inv (st_fig s) ->
  exists f' : figure F,
    update (Z.of_nat k) s = (Raise e, State f' (st_dirs s) (st_fs s) (st_log s)).
Hypothesis render_rgb : forall i, (i < k)%nat -> has_rgb (render (frame_fig i)).

Local Abbreviation frames_folder := (path_join out_folder "frames").
Local Abbreviation video_name := (path_join out_folder "video.mp4").
Local Abbreviation run :=
  (frames_run render frame_fig frames_folder video_name "MP4V" FPS).

Lemma render_frames_abort (j a m : nat) (video : option string) (s : state F) :
  (a + j = k)%nat -> Inv (st_fig s) -> (a <> 0%nat -> video = Some video_name) ->
  exists f' : figure F,
    render_frames render update frames_folder video_name "MP4V" FPS
                  (seq a (j + S m)) video s
    = (Raise e, State f' (st_dirs (run (seq a j) s)) (st_fs (run (seq a j) s))
                      (st_log (run (seq a j) s))).
Proof.
  revert a video s. induction j as [|j IH]; intros a video s Ha HI Hv.
  - assert (a = k) as -> by lia. destruct (update_fails s HI) as [f' Ef].
    exists f'. cbn [Nat.add seq render_frames]. unfold mbind at 1. now rewrite Ef.
  - cbn [Nat.add seq].
    destruct (render_frames_step render update frame_fig Inv frames_folder
                video_name "MP4V" FPS k update_spec render_rgb
                a (seq (S a) (j + S m)) video s) as [E HI'];
      [lia | assumption | assumption |].
    rewrite E.
    destruct (IH (S a) (Some video_name)
                 (frame_step render frame_fig frames_folder video_name "MP4V"
                             FPS a s)) as [f' Ef]; [lia | assumption | reflexivity |].
    exists f'. rewrite Ef. reflexivity.
Qed.

Lemma opencv_writer_abort (n : nat) (s : state F) :
  (k < n)%nat -> Inv (st_fig s) ->
  exists f' : figure F,
    opencv_writer render update out_folder FPS n s
    = (Raise e, opencv_aborted render frame_fig out_folder FPS k f' s).
Proof.
  intros Hn HI.
  assert (En : n = (k + S (n - k - 1))%nat) by lia.
  revert En. generalize (n - k - 1)%nat. intros m ->.
  unfold opencv_writer, opencv_aborted.
  unfold mbind at 1, mkdir at 1. unfold mbind at 1.
  destruct (render_frames_abort k 0 m None
              (State (st_fig s) ({[frames_folder]} ∪ st_dirs s) (st_fs s)
                     (st_log s ++ [EMkdir frames_folder])))
    as [f' Ef]; [lia | exact HI | congruence |].
  exists f'. rewrite Ef. reflexivity.
Qed.

End FrameLoopAbort.

Lemma frame_events_not_released {F} (render : figure F -> image)
    (frame_fig : nat -> figure F) (frames_folder video_name fourcc : string)
    (FPS : Z) (idx : list nat) :
  released_videos (concat (map (frame_events render frame_fig frames_folder
                                             video_name fourcc FPS) idx))
  = [].
Proof.
  induction idx as [|i idx IH]; [reflexivity|].
  cbn [map concat]. unfold released_videos in *. rewrite omap_app, IH.
  unfold frame_events. destruct (Nat.eqb i 0); reflexivity.
Qed.

(** What the aborted run leaves behind. *)
Section OpencvAborted.
Context {F : Type}.
Variable render : figure F -> image.
Variable frame_fig : nat -> figure F.
Variables (out_folder : string) (FPS : Z) (k : nat) (f' : figure F) (s : state F).

Local Abbreviation frames_folder := (path_join out_folder "frames").
Local Abbreviation video_name := (path_join out_folder "video.mp4").
Local Abbreviation final := (opencv_aborted render frame_fig out_folder FPS k f' s).
Local Abbreviation aborted_log :=
  (EMkdir frames_folder
   :: concat (map (frame_events render frame_fig frames_folder video_name
                                "MP4V" FPS) (seq 0 k))).

Lemma opencv_aborted_log : st_log final = (st_log s ++ aborted_log)%list.
Proof.
  unfold opencv_aborted. cbn [st_log]. rewrite frames_run_log. cbn [st_log].
  now rewrite <- app_assoc.
Qed.

Lemma aborted_log_saved :
  saved_paths aborted_log = map (frame_name frames_folder) (seq 0 k).
Proof. unfold saved_paths. rewrite omap_step. apply frame_events_saved. Qed.

Lemma aborted_log_written :
  written_frames aborted_log = map (fun i => bgr (render (frame_fig i))) (seq 0 k).
Proof. unfold written_frames. rewrite omap_step. apply frame_events_written. Qed.

Lemma aborted_log_released : released_videos aborted_log = [].
Proof.
  unfold released_videos. rewrite omap_step. apply frame_events_not_released.
Qed.

Lemma opencv_aborted_frame (i : nat) :
  (i < k)%nat ->
  st_fs final !! frame_name frames_folder i = Some (FImage (render (frame_fig i))).
Proof.
  intros Hi. unfold opencv_aborted. cbn [st_fs]. rewrite frames_run_fs.
  cbn [st_fs]. apply frames_fs_frame; [apply frame_name_not_video|].
  apply elem_of_seq. lia.
Qed.

Lemma opencv_aborted_later (i : nat) :
  (k <= i)%nat ->
  st_fs final !! frame_name frames_folder i = st_fs s !! frame_name frames_folder i.
Proof.
  intros Hi. unfold opencv_aborted. cbn [st_fs]. rewrite frames_run_fs.
  cbn [st_fs]. apply frames_fs_other; [apply frame_name_not_video|].
  intros j Hj E. apply frame_name_inj in E. apply elem_of_seq in Hj. lia.
Qed.

Lemma opencv_aborted_video :
  (1 <= k)%nat ->
  st_fs final !! video_name
  = Some (FVideo (video_of_frames render frame_fig "MP4V" FPS k false)).
Proof.
  intros Hk. unfold opencv_aborted. cbn [st_fs]. rewrite frames_run_fs.
  cbn [st_fs]. destruct k as [|k']; [lia|].
  now rewrite frames_fs_video by apply frame_name_not_video.
Qed.

End OpencvAborted.

(** X8.  When the update first raises at index [k], the opencv branch raises
    that exception having saved and appended exactly the frames before
    [k]: they stay on disk, frame [k] and later ones are not written, and
    the video, opened if [k >= 1], holds [k] frames; [video.release()] is
    not reached. *)
Theorem opencv_writer_partial_artifacts {F : Type} `{PyFloat F}
    (render : figure F -> image) (update : Z -> M (state F) unit)
    (frame_fig : nat -> figure F) (Inv : figure F -> Prop)
    (out_folder : string) (FPS : Z) (k n : nat) (e : exn) (s : state F) :
  let frames_folder := path_join out_folder "frames" in
  let video_name := path_join out_folder "video.mp4" in
  (forall (i : nat) (s0 : state F),
     (i < k)%nat -> Inv (st_fig s0) ->
     update (Z.of_nat i) s0
       = (Ok tt, State (frame_fig i) (st_dirs s0) (st_fs s0) (st_log s0))
     /\ Inv (frame_fig i)) ->
  (forall s0 : state F,
     Inv (st_fig s0) ->
     exists f' : figure F,
       update (Z.of_nat k) s0
       = (Raise e, State f' (st_dirs s0) (st_fs s0) (st_log s0))) ->
  (forall i, (i < k)%nat -> has_rgb (render (frame_fig i))) ->
  (k < n)%nat -> Inv (st_fig s) ->
  exists (s' : state F) (log : list (effect F)),
    opencv_writer render update out_folder FPS n s = (Raise e, s') /\
    st_log s' = (st_log s ++ log)%list /\
    saved_paths log = map (frame_name frames_folder) (seq 0%nat k) /\
    written_frames log = map (fun i => bgr (render (frame_fig i))) (seq 0%nat k) /\
    released_videos log = [] /\
    (forall i : nat, (i < k)%nat ->
       st_fs s' !! frame_name frames_folder i = Some (FImage (render (frame_fig i)))) /\
    (forall i : nat, (k <= i)%nat ->
       st_fs s' !! frame_name frames_folder i = st_fs s !! frame_name frames_folder i) /\
    ((1 <= k)%nat ->
     st_fs s' !! video_name
     = Some (FVideo (Container "MP4V" FPS (image_size (render (frame_fig 0%nat)))
                               (map (fun i => bgr (render (frame_fig i))) (seq 0%nat k))
                               false))) /\
    (k = 0%nat -> st_fs s' !! video_name = st_fs s !! video_name).
Proof.
  intros frames_folder video_name Hupd Hfail Hrgb Hkn HI.
  destruct (opencv_writer_abort render update frame_fig Inv out_folder FPS k e
              Hupd Hfail Hrgb n s Hkn HI) as [f' Hrun].
  eexists _, _. split; [exact Hrun|].
  split; [apply opencv_aborted_log|].
  split; [apply aborted_log_saved|].
  split; [apply aborted_log_written|].
  split; [apply aborted_log_released|].
  split; [intros i Hi; now apply opencv_aborted_frame|].
  split; [intros i Hi; now apply opencv_aborted_later|].
  split.
  - intros Hk. exact (opencv_aborted_video render frame_fig out_folder FPS k f' s Hk).
  - intros ->. reflexivity.
Qed.

Lemma opencv_writer_partial_artifacts_witness :
  exists s' : state Q,
    opencv_writer (fun _ => [[[10; 20; 30; 255]]])
                  (update_eta [[[1; 2]; [3; 4]]]%Q 60%Q) "out" 10 2
                  (State (Figure None "x [m]" "y [m]" ""
                                 (Some (PColorMesh [[0%Q]] [[0%Q]] []
                                                   ((-7 # 10) * 4)%Q 4%Q))
                                 true None None None) ∅ ∅ [])
    = (Raise IndexError, s') /\
    saved_paths (st_log s') = ["out/frames/frame_00000000.png"] /\
    released_videos (st_log s') = [].
Proof.
  destruct (opencv_writer_partial_artifacts
              (fun _ => [[[10; 20; 30; 255]]])
              (update_eta [[[1; 2]; [3; 4]]]%Q 60%Q)
              (eta_frame [[0%Q]] [[0%Q]] [[[1; 2]; [3; 4]]]%Q 60%Q
                         ((-7 # 10) * 4)%Q 4%Q)
              (fun f => exists t C,
                 f = Figure t "x [m]" "y [m]" ""
                            (Some (PColorMesh [[0%Q]] [[0%Q]] C
                                              ((-7 # 10) * 4)%Q 4%Q))
                            true None None None)
              "out" 10 1%nat 2%nat IndexError
              (State (Figure None "x [m]" "y [m]" ""
                             (Some (PColorMesh [[0%Q]] [[0%Q]] []
                                               ((-7 # 10) * 4)%Q 4%Q))
                             true None None None) ∅ ∅ []))
    as (s' & log & Hrun & Hlog & Hsaved & _ & Hrel & _).
  - intros i s0 Hi HI. apply update_eta_spec; [cbn; lia | exact HI].
  - intros s0 _. eexists. unfold update_eta, mbind, lift.
    rewrite (Q_minutes 1). reflexivity.
  - intros i _. repeat constructor.
  - lia.
  - exists None, []. reflexivity.
  - exists s'. split; [exact Hrun|]. rewrite Hlog. cbn [st_log app].
    rewrite Hsaved, Hrel. split; [vm_compute; reflexivity | reflexivity].
Defined.

(** ** velocity_animation on a grid of 50 by 50 or more *)

Section VelocityAnimation.
Variable render : figure Q -> image.
Variables (X Y : array2 Q) (u_list v_list : list (array2 Q)).
Variables (frame_interval arrow_scale : Q) (out_folder : string) (FPS : Z).
Variable q : nat.
Hypothesis stride_pos : (1 <= q)%nat.
Hypothesis stride_ok : quiver_stride X = Ok (Z.of_nat q).

Local Abbreviation Xs := (map (map (fun x => x / inject_Z 1000)%Q) (subsample q X)).
Local Abbreviation Ys := (map (map (fun y => y / inject_Z 1000)%Q) (subsample q Y)).
Local Abbreviation fig :=
  (quiver_frame X Y u_list v_list frame_interval arrow_scale q).
Local Abbreviation drawn := (fun f : figure Q =>
  exists t U V, f = Figure t "x [km]" "y [km]" ""
                           (Some (Quiver Xs Ys U V arrow_scale))
                           false None None None).
Local Abbreviation after_setup := (fun s : state Q =>
  State (Figure (Some (TitleText title_velocity0)) "x [km]" "y [km]" ""
                (Some (Quiver Xs Ys (subsample q (nth 0 u_list []))
                              (subsample q (nth 0 v_list [])) arrow_scale))
                false None None None)
        (st_dirs s) (st_fs s) (st_log s)).

Lemma update_quiver_spec (i : nat) (s : state Q) :
  (i < length u_list)%nat -> (i < length v_list)%nat -> drawn (st_fig s) ->
  update_quiver u_list v_list frame_interval (Z.of_nat q) (Z.of_nat i) s
    = (Ok tt, State (fig i) (st_dirs s) (st_fs s) (st_log s))
  /\ drawn (fig i).
Proof.
  intros Hu Hv (t & U & V & Ef). split; [|unfold quiver_frame; eauto].
  destruct (lookup_lt_is_Some_2 u_list i Hu) as [u Eu].
  destruct (lookup_lt_is_Some_2 v_list i Hv) as [v Ev].
  unfold update_quiver, mbind, lift.
  rewrite (getitem_lookup _ _ _ Eu), (getitem_lookup _ _ _ Ev), Q_minutes.
  rewrite !slice2_subsample by assumption.
  unfold set_title, set_UVC, modify_fig. cbn [st_fig st_dirs st_fs st_log].
  rewrite Ef. cbn. unfold quiver_frame.
  rewrite (nth_lookup_Some _ _ _ _ Eu), (nth_lookup_Some _ _ _ _ Ev).
  reflexivity.
Qed.

(** With fewer [v] than [u] snapshots, [v_list[num]] raises at the first
    index [v_list] lacks, before the figure is touched. *)
Lemma update_quiver_short (s : state Q) :
  (length v_list < length u_list)%nat ->
  update_quiver u_list v_list frame_interval (Z.of_nat q)
                (Z.of_nat (length v_list)) s
  = (Raise IndexError, State (st_fig s) (st_dirs s) (st_fs s) (st_log s)).
Proof.
  intros Hlt.
  destruct (lookup_lt_is_Some_2 u_list (length v_list) Hlt) as [u Eu].
  unfold update_quiver, mbind, lift.
  rewrite (getitem_lookup _ _ _ Eu), getitem_out_of_range by lia.
  destruct s; reflexivity.
Qed.

Lemma velocity_animation_setup (writer : string) (s : state Q) :
  u_list <> [] -> v_list <> [] ->
  velocity_animation render X Y u_list v_list frame_interval out_folder writer
                     FPS arrow_scale s
  = (if String.eqb writer "opencv"
     then opencv_writer render
            (update_quiver u_list v_list frame_interval (Z.of_nat q))
            out_folder FPS (length u_list)
     else ffmpeg_writer) (after_setup s).
Proof.
  intros Hu Hv.
  destruct (lookup_lt_is_Some_2 u_list 0) as [u0 Eu].
  { destruct u_list; [congruence | cbn; lia]. }
  destruct (lookup_lt_is_Some_2 v_list 0) as [v0 Ev].
  { destruct v_list; [congruence | cbn; lia]. }
  pose proof (getitem_lookup _ _ _ Eu) as Gu. change (Z.of_nat 0) with 0 in Gu.
  pose proof (getitem_lookup _ _ _ Ev) as Gv. change (Z.of_nat 0) with 0 in Gv.
  unfold velocity_animation, mbind, lift, new_figure, set_title, set_labels,
    set_artist, modify_fig.
  rewrite stride_ok, Gu, Gv. cbn [rbind].
  rewrite !slice2_subsample by assumption. cbn [rbind].
  rewrite !Q_div_all.
  rewrite (nth_lookup_Some _ _ _ _ Eu), (nth_lookup_Some _ _ _ _ Ev).
  destruct (String.eqb writer "opencv"); reflexivity.
Qed.

Lemma velocity_animation_opencv (s : state Q) :
  u_list <> [] -> (length u_list <= length v_list)%nat ->
  (forall f, has_rgb (render f)) ->
  velocity_animation render X Y u_list v_list frame_interval out_folder "opencv"
                     FPS arrow_scale s
  = (Ok (RInt 0),
     opencv_run render fig out_folder FPS (length u_list) (after_setup s)).
Proof.
  intros Hu Hlen Hrgb.
  assert (Hv : v_list <> []).
  { destruct u_list; [congruence|]. destruct v_list; [cbn in Hlen; lia | discriminate]. }
  rewrite velocity_animation_setup by assumption.
  cbn [String.eqb Ascii.eqb Bool.eqb].
  apply (opencv_writer_run render _ fig drawn).
  - intros i s' Hi HI. apply update_quiver_spec; [lia | lia | exact HI].
  - intros i _. apply Hrgb.
  - destruct u_list; [congruence | cbn; lia].
  - cbn [st_fig]. eauto.
Qed.

Lemma velocity_animation_short (s : state Q) :
  v_list <> [] -> (length v_list < length u_list)%nat ->
  (forall f, has_rgb (render f)) ->
  exists f' : figure Q,
    velocity_animation render X Y u_list v_list frame_interval out_folder "opencv"
                       FPS arrow_scale s
    = (Raise IndexError,
       opencv_aborted render fig out_folder FPS (length v_list) f' (after_setup s)).
Proof.
  intros Hv Hlen Hrgb.
  assert (Hu : u_list <> []) by (destruct u_list; [cbn in Hlen; lia | discriminate]).
  rewrite velocity_animation_setup by assumption.
  cbn [String.eqb Ascii.eqb Bool.eqb].
  apply (opencv_writer_abort render _ fig drawn).
  - intros i s' Hi HI. apply update_quiver_spec; [lia | lia | exact HI].
  - intros s' _. eexists. now apply update_quiver_short.
  - intros i _. apply Hrgb.
  - exact Hlen.
  - cbn [st_fig]. eauto.
Qed.

End VelocityAnimation.

Lemma Q_quiver_stride_nat (X : array2 Q) :
  50 <= Z.min (shape0 X) (shape1 X) ->
  let q := Z.to_nat (Z.min (shape0 X) (shape1 X) / 50) in
  (1 <= q)%nat /\ quiver_stride X = Ok (Z.of_nat q).
Proof.
  intros Hbig q.
  assert (1 <= Z.min (shape0 X) (shape1 X) / 50)
    by (apply Z.div_le_lower_bound; lia).
  split; [unfold q; lia|]. rewrite Q_quiver_stride. unfold q. f_equal. lia.
Qed.

(** Thinning arrays of one shape gives arrays of one shape. *)
Lemma every_map {A B} (g : A -> B) (fuel q : nat) (l : list A) :
  every fuel q (map g l) = map g (every fuel q l).
Proof.
  revert l. induction fuel as [|fuel IH]; intros [|x l]; try reflexivity.
  cbn [every map]. f_equal. rewrite <- IH. f_equal.
  change (g x :: map g l) with (map g (x :: l)). apply skipn_map.
Qed.

Lemma every_length_eq {A B} (fuel q : nat) (l : list A) (l' : list B) :
  length l = length l' -> length (every fuel q l) = length (every fuel q l').
Proof.
  revert l l'. induction fuel as [|fuel IH]; intros [|x l] [|x' l'] E;
    try reflexivity; try discriminate.
  cbn [every length]. f_equal. apply IH. rewrite !length_skipn. now rewrite E.
Qed.

Lemma subsample_shape {A B} (q : nat) (a : list (list A)) (b : list (list B)) :
  map (@length A) a = map (@length B) b ->
  map (@length A) (subsample q a) = map (@length B) (subsample q b).
Proof.
  intros E.
  assert (Hrow : forall C (c : list (list C)),
            map (@length C) (subsample q c)
            = map (fun n => length (every n q (replicate n tt)))
                  (every (length (map (@length C) c)) q (map (@length C) c))).
  { intros C c. unfold subsample. rewrite every_map, !map_map, length_map.
    apply map_ext. intros row. apply every_length_eq.
    now rewrite length_replicate. }
  now rewrite (Hrow A a), (Hrow B b), E.
Qed.

Lemma Q_velocity_setup_ok (X Y : array2 Q) (u_list v_list : list (array2 Q))
    (u0 v0 : array2 Q) :
  50 <= Z.min (shape0 X) (shape1 X) ->
  u_list !! 0%nat = Some u0 -> v_list !! 0%nat = Some v0 ->
  same_shape X Y = true -> same_shape X u0 = true -> same_shape X v0 = true ->
  velocity_setup_ok X Y u_list v_list.
Proof.
  intros Hbig Hu Hv HY Hu0 Hv0.
  destruct (Q_quiver_stride_nat X Hbig) as [Hq Hstride].
  set (q := Z.to_nat (Z.min (shape0 X) (shape1 X) / 50)) in *.
  apply bool_decide_eq_true in HY, Hu0, Hv0.
  exists (Z.of_nat q),
         (map (map (fun x => x / inject_Z 1000)%Q) (subsample q X)),
         (map (map (fun y => y / inject_Z 1000)%Q) (subsample q Y)),
         (subsample q u0), (subsample q v0).
  pose proof (getitem_lookup _ _ _ Hu) as Gu. change (Z.of_nat 0) with 0 in Gu.
  pose proof (getitem_lookup _ _ _ Hv) as Gv. change (Z.of_nat 0) with 0 in Gv.
  rewrite Gu, Gv. cbn [rbind]. rewrite !slice2_subsample by assumption.
  cbn [rbind]. rewrite !Q_div_all.
  assert (Hmap : forall a : array2 Q,
            map (@length Q) (map (map (fun x => x / inject_Z 1000)%Q) a)
            = map (@length Q) a).
  { intros a. rewrite map_map. apply map_ext. intros row. apply length_map. }
  repeat split; try assumption; apply bool_decide_eq_true; rewrite !Hmap;
    now apply subsample_shape.
Qed.





(** ** eta_animation3D: the axes of every frame *)

Lemma Q_km_range_values (a : array2 Q) (lo hi : Q) :
  amin (concat a) = Ok lo -> amax (concat a) = Ok hi ->
  km_range a = Ok ((lo / inject_Z 1000)%Q, (hi / inject_Z 1000)%Q).
Proof.
  intros Elo Ehi. unfold km_range. rewrite Elo, Ehi. cbn [rbind].
  rewrite !Q_fdiv_ok by discriminate. reflexivity.
Qed.

(** X11.  Every frame [eta_animation3D] saves is drawn on axes cleared and set
    afresh: the title carries [i * frame_interval / 60], the labels are in
    km and m, the x- and y-limits are the least and greatest grid
    coordinate divided by 1000, and the z-limits are the constants -0.3
    and 0.7 whatever the data; the "Blues" surface plotted before the
    loop is in no frame. *)
Theorem eta_animation3D_frame_axes
    (render : figure Q -> image) (X Y : array2 Q) (eta_list : list (array2 Q))
    (frame_interval : Q) (out_folder : string) (FPS : Z) (n0 n1 : nat)
    (s : state Q) :
  let frames_folder := path_join out_folder "frames" in
  eta_list <> [] -> (0 < n0)%nat -> (0 < n1)%nat ->
  Forall (fun eta => rectangular eta n0 n1) eta_list ->
  rectangular X n0 n1 -> rectangular Y n0 n1 ->
  (forall f, has_rgb (render f)) ->
  exists (xmin xmax ymin ymax : Q) (s' : state Q),
    amin (concat X) = Ok xmin /\ amax (concat X) = Ok xmax /\
    amin (concat Y) = Ok ymin /\ amax (concat Y) = Ok ymax /\
    eta_animation3D render X Y eta_list frame_interval out_folder "opencv" FPS s
      = (Ok (RInt 0), s') /\
    (forall i : nat, (i < length eta_list)%nat ->
       exists f : figure Q,
         st_fs s' !! frame_name frames_folder i = Some (FImage (render f)) /\
         fig_title f
           = Some (TitleFmt title_surf
                     (inject_Z (Z.of_nat i) * frame_interval / inject_Z 60)%Q) /\
         (fig_xlabel f, fig_ylabel f, fig_zlabel f)
           = ("x [km]", "y [km]", "$\eta$ [m]") /\
         fig_xlim f = Some ((xmin / inject_Z 1000)%Q, (xmax / inject_Z 1000)%Q) /\
         fig_ylim f = Some ((ymin / inject_Z 1000)%Q, (ymax / inject_Z 1000)%Q) /\
         fig_zlim f = Some ((-3 # 10)%Q, (7 # 10)%Q) /\
         (forall Xs Ys Zs clim,
            fig_artist f <> Some (Surface Xs Ys Zs "Blues" clim))).
Proof.
  intros frames_folder Hne Hn0 Hn1 Hshape HX HY Hrgb.
  assert (Hent : concat (concat eta_list) <> []).
  { destruct eta_list as [|eta0 rest]; [congruence|].
    inversion Hshape as [|? ? Hr0 _]; subst.
    pose proof (rectangular_nonempty _ _ _ Hr0 Hn0 Hn1) as Hc.
    cbn [concat]. rewrite concat_app.
    destruct (concat eta0); [congruence | discriminate]. }
  destruct (Q_amin _ Hent) as (vmin & Emin & _).
  destruct (Q_amax _ Hent) as (vmax & Emax & _).
  destruct (Q_amin _ (rectangular_nonempty _ _ _ HX Hn0 Hn1)) as (xmin & Exmin & _).
  destruct (Q_amax _ (rectangular_nonempty _ _ _ HX Hn0 Hn1)) as (xmax & Exmax & _).
  destruct (Q_amin _ (rectangular_nonempty _ _ _ HY Hn0 Hn1)) as (ymin & Eymin & _).
  destruct (Q_amax _ (rectangular_nonempty _ _ _ HY Hn0 Hn1)) as (ymax & Eymax & _).
  exists xmin, xmax, ymin, ymax. eexists.
  split; [exact Exmin|]. split; [exact Exmax|].
  split; [exact Eymin|]. split; [exact Eymax|].
  split.
  { apply (eta_animation3D_opencv render X Y eta_list frame_interval out_folder FPS
             vmin vmax _ _ n0 n1 s Hne Hshape Emin Emax
             (Q_km_range_values X xmin xmax Exmin Exmax)
             (Q_km_range_values Y ymin ymax Eymin Eymax) Hrgb). }
  intros i Hi. eexists. split; [now apply opencv_run_frame|].
  unfold surf_frame. cbn [fig_title fig_xlabel fig_ylabel fig_zlabel fig_xlim
                          fig_ylim fig_zlim fig_artist].
  repeat (split; [reflexivity|]). intros Xs Ys Zs clim. discriminate.
Qed.

Lemma eta_animation3D_frame_axes_witness :
  exists (s' : state Q) (f : figure Q),
    eta_animation3D (fun _ => [[[10; 20; 30; 255]]])
                    [[0; 2000]; [0; 2000]]%Q [[0; 0]; [500; 500]]%Q
                    [[[1; 2]; [3; 4]]; [[5; -9]; [7; 8]]]%Q
                    60%Q "out" "opencv" 10 initial_state
    = (Ok (RInt 0), s') /\
    fig_xlim f = Some ((0 / inject_Z 1000)%Q, (2000 / inject_Z 1000)%Q) /\
    fig_zlim f = Some ((-3 # 10)%Q, (7 # 10)%Q).
Proof.
  destruct (eta_animation3D_frame_axes
              (fun _ => [[[10; 20; 30; 255]]])
              [[0; 2000]; [0; 2000]]%Q [[0; 0]; [500; 500]]%Q
              [[[1; 2]; [3; 4]]; [[5; -9]; [7; 8]]]%Q
              60%Q "out" 10 2%nat 2%nat initial_state)
    as (xmin & xmax & ymin & ymax & s' & Exmin & Exmax & _ & _ & Hrun & Hframes).
  - discriminate.
  - lia.
  - lia.
  - repeat constructor.
  - repeat constructor.
  - repeat constructor.
  - intros f. repeat constructor.
  - destruct (Hframes 1%nat) as (f & _ & _ & _ & Hxl & _ & Hzl & _); [cbn; lia|].
    exists s', f. split; [exact Hrun|].
    vm_compute in Exmin. injection Exmin as <-.
    vm_compute in Exmax. injection Exmax as <-.
    split; [exact Hxl | exact Hzl].
Defined.

(** ** eta_animation: running it again, and a degenerate colour scale *)



(** X13.  When the middle snapshot [eta_list[len / 2]] has no entry, its
    [np.abs(...).max()] raises ValueError while the colour limits are
    computed: [eta_animation] stops there whatever the writer, with no
    directory, frame or video made. *)
Theorem eta_animation_empty_mid_snapshot
    (render : figure Q -> image) (X Y : array2 Q) (eta_list : list (array2 Q))
    (mid : array2 Q) (frame_interval : Q) (out_folder writer : string)
    (FPS : Z) (s : state Q) :
  eta_list !! (length eta_list / 2)%nat = Some mid -> concat mid = [] ->
  exists s' : state Q,
    eta_animation render X Y eta_list frame_interval out_folder writer FPS s
      = (Raise ValueError, s') /\
    st_fs s' = st_fs s /\ st_dirs s' = st_dirs s /\ st_log s' = st_log s.
Proof.
  intros Hmid Hempty.
  destruct (lookup_lt_is_Some_2 eta_list 0) as [eta0 H0].
  { apply lookup_lt_Some in Hmid. lia. }
  pose proof (getitem_lookup _ _ _ H0) as E0. change (Z.of_nat 0) with 0 in E0.
  assert (Em : mid_magnitude eta_list = Raise ValueError).
  { unfold mid_magnitude. rewrite Q_mid_index. cbn [rbind].
    rewrite (getitem_lookup _ _ _ Hmid). cbn [rbind].
    unfold abs_max. now rewrite Hempty. }
  eexists. split.
  - unfold eta_animation, mbind, lift, new_figure, set_labels, modify_fig.
    rewrite E0, Em. reflexivity.
  - repeat split.
Qed.

Lemma eta_animation_empty_mid_snapshot_witness :
  exists s' : state Q,
    eta_animation (fun _ => []) [[0%Q]] [[0%Q]] [[[1%Q]]; [[]; []]; [[2%Q]]] 60%Q
                  "out" "opencv" 10 initial_state
    = (Raise ValueError, s') /\
    st_fs s' = ∅ /\ st_dirs s' = ∅ /\ st_log s' = [].
Proof.
  apply (eta_animation_empty_mid_snapshot
           (fun _ => []) [[0%Q]] [[0%Q]] [[[1%Q]]; [[]; []]; [[2%Q]]] [[]; []]
           60%Q "out" "opencv" 10 initial_state); reflexivity.
Defined.
